(** * Slack workspace export: crawl-and-aggregate pipeline

    A shallow embedding of the export handler (the serverless function
    that lists channels and users, harvests thirty days of history per
    channel, inlines small images as base64 and assembles the export
    snapshot), together with the properties its specification states.

    Conventions of the embedding.
    - Objects received from the Slack Web API are records whose fields
      follow the interfaces of [slack-app/src/types/slack.ts]; a field
      that may be missing or [undefined] is an [option]; whatever else
      the object carries, and the handler never reads, is kept in a
      finite map of JSON values ([other]) that the spread operator
      copies along.
    - JavaScript objects used as dictionaries ([usersById],
      [channelMessages], [channelData]) are finite maps of their own
      entries, written and read the way a plain object is: assigning
      under the key [__proto__] replaces the prototype and adds no
      entry; reading a key finds an own entry first, then what the
      prototype provides ([constructor], [toString], ...); an unset
      author id reads the key [undefined].
    - Numbers are the integers the API sends (byte sizes, counts,
      epoch times).
    - The remote service, the clock and the network are an explicit
      [World] threaded through every call; [await] is sequencing, and
      the branches of a [Promise.all] run in list order, which is one of
      the interleavings the runtime may choose.
    - [console.log], [console.warn] and [console.error] are omitted.
    - The export proper ([exportData]) comes first; the request handler
      around it ([handler]: method, passkey and token checks, status
      codes) and the viewer's rendering of attachments follow. *)

From Stdlib Require Import ZArith.
From stdpp Require Import base option list strings gmap pretty.

Set Warnings "-register-all".

(** ** Carried JSON data *)

(** A decoded JSON value; its numbers are integers. *)
Inductive json :=
| JNull
| JBool (b : bool)
| JNum (n : Z)
| JStr (s : string)
| JArr (l : list json)
| JObj (l : list (string * json)).

(** ** JavaScript truthiness and the [||] operator *)

(** A string-valued property is truthy when it is set and not empty. *)
Definition truthy_string (v : option string) : bool :=
  match v with
  | Some s => bool_decide (s ≠ "")
  | None => false
  end.

(** A numeric property is truthy when it is set and not zero. *)
Definition truthy_number (v : option Z) : bool :=
  match v with
  | Some n => bool_decide (n ≠ 0%Z)
  | None => false
  end.

(** [a || b] on string-valued properties. *)
Definition or_string (a b : option string) : option string :=
  if truthy_string a then a else b.

(** [a || ''] *)
Definition or_empty (a : option string) : string :=
  if truthy_string a then default "" a else "".

(** [a || 0] *)
Definition or_zero (a : option Z) : Z :=
  if truthy_number a then default 0%Z a else 0%Z.

(** Truthiness of a decoded JSON value. *)
Definition truthy_json (j : json) : bool :=
  match j with
  | JNull => false
  | JBool b => b
  | JNum n => bool_decide (n ≠ 0%Z)
  | JStr s => bool_decide (s ≠ "")
  | JArr _ | JObj _ => true
  end.

(** The entry of a decoded object under a key (its keys are distinct). *)
Fixpoint json_entry (key : string) (l : list (string * json)) : option json :=
  match l with
  | [] => None
  | (k, v) :: l' => if decide (k = key) then Some v else json_entry key l'
  end.

(** [j?.key] for a decoded JSON value [j], possibly missing: only an
    object has entries. *)
Definition json_get (key : string) (j : option json) : option json :=
  match j with
  | Some (JObj l) => json_entry key l
  | _ => None
  end.

(** A property that the interfaces type as a string, read as one. *)
Definition json_string (j : option json) : option string :=
  match j with
  | Some (JStr s) => Some s
  | _ => None
  end.

(** [o[key] = v] for an object [o] created by [{}] and an object [v]:
    under the key [__proto__] the assignment replaces the prototype of
    [o] and adds no entry. The prototypes of [channelMessages] and
    [channelData] are never read (only their own entries are, by
    [Object.values] and by the JSON answer), so they are not kept. *)
Definition set_property {A} (key : string) (v : A) (o : gmap string A)
    : gmap string A :=
  if decide (key = "__proto__") then o else <[key := v]> o.

(** A property that may be missing, [null], or hold a value. *)
Inductive nullable (A : Type) :=
| Undefined
| Null
| Value (a : A).
Arguments Undefined {A}.
Arguments Null {A}.
Arguments Value {A} a.

(** ** Data model *)

(** A file attached to a message (the element type of
    [SlackMessage.files]). *)
Module SlackFile.
Record t := mk {
  url_private : option string;
  size : option Z;
  mimetype : option string;
  file_data : option string;
  file_data_mimetype : option string;
  other : gmap string json
}.

(** [{ ...file, file_data: d, file_data_mimetype: file.mimetype }] *)
Definition with_file_data (file : t) (d : string) : t :=
  {| url_private := url_private file;
     size := size file;
     mimetype := mimetype file;
     file_data := Some d;
     file_data_mimetype := mimetype file;
     other := other file |}.
End SlackFile.

(** A member of the workspace ([SlackUser]). *)
Module SlackUser.
Record profile := mkProfile {
  display_name : option string;
  image_72 : option string;
  profile_other : gmap string json
}.

Record t := mk {
  id : string;
  name : option string;
  real_name : option string;
  profile_of : option profile;
  other : gmap string json
}.
End SlackUser.

(** The object [usersById]: its own entries, and the user object that
    replaced its prototype, if one did. *)
Module UsersById.
Record t := mk {
  entries : gmap string SlackUser.t;
  prototype : option SlackUser.t
}.
End UsersById.

(** [o !! key] is the own entry of [usersById] under [key]. *)
#[export] Instance UsersById_lookup : Lookup string SlackUser.t UsersById.t :=
  λ key o, UsersById.entries o !! key.

(** [{}] *)
#[export] Instance UsersById_empty : Empty UsersById.t :=
  {| UsersById.entries := ∅; UsersById.prototype := None |}.

(** What reading a property of [usersById] can yield: a user object, or
    something found along the prototype chain. *)
Inductive property_value :=
| PUser (u : SlackUser.t)
| PProfile (p : SlackUser.profile)
| PString (s : string)
| PJson (j : json)
| PFunction (name : string)
| PObjectPrototype
| PUndefined.

(** The functions every object inherits from [Object.prototype]. *)
Definition Object_prototype_functions : list string :=
  ["constructor"; "__defineGetter__"; "__defineSetter__"; "hasOwnProperty";
   "__lookupGetter__"; "__lookupSetter__"; "isPrototypeOf";
   "propertyIsEnumerable"; "toString"; "valueOf"; "toLocaleString"].

(** The keys every object answers to, own entry or not. *)
Definition Object_prototype_keys : list string :=
  "__proto__" :: Object_prototype_functions.

(** [key] as found on [Object.prototype], for an object whose
    prototype is [proto]: the accessor [__proto__] yields [proto], and
    [constructor] is the function named [Object]. *)
Definition inherited_from_Object (key : string) (proto : property_value)
    : property_value :=
  if decide (key = "__proto__") then proto
  else if decide (key = "constructor") then PFunction "Object"
  else if decide (key ∈ Object_prototype_functions) then PFunction key
  else PUndefined.

(** The own property [key] of a user object, if it has one. *)
Definition user_own_property (u : SlackUser.t) (key : string)
    : option property_value :=
  if decide (key = "id") then Some (PString (SlackUser.id u))
  else if decide (key = "name") then PString <$> SlackUser.name u
  else if decide (key = "real_name") then PString <$> SlackUser.real_name u
  else if decide (key = "profile") then PProfile <$> SlackUser.profile_of u
  else PJson <$> SlackUser.other u !! key.

(** [usersById[key]] *)
Definition get_property (o : UsersById.t) (key : string) : property_value :=
  match UsersById.entries o !! key with
  | Some u => PUser u
  | None =>
      match UsersById.prototype o with
      | Some pu =>
          match user_own_property pu key with
          | Some v => v
          | None => inherited_from_Object key (PUser pu)
          end
      | None => inherited_from_Object key PObjectPrototype
      end
  end.

(** [usersById[key] = user]: an own entry, except under [__proto__],
    where the accessor of [Object.prototype] replaces the prototype,
    unless a property of that name is found before the accessor (an own
    one, or one the user object that is the prototype carries). *)
Definition set_user (key : string) (user : SlackUser.t) (o : UsersById.t)
    : UsersById.t :=
  if decide (key = "__proto__") then
    if decide (is_Some (UsersById.entries o !! key)
               ∨ is_Some (pu ← UsersById.prototype o;
                          SlackUser.other pu !! key))
    then {| UsersById.entries := <[key := user]> (UsersById.entries o);
            UsersById.prototype := UsersById.prototype o |}
    else {| UsersById.entries := UsersById.entries o;
            UsersById.prototype := Some user |}
  else {| UsersById.entries := <[key := user]> (UsersById.entries o);
          UsersById.prototype := UsersById.prototype o |}.

(** Whether a value read from [usersById] is truthy. *)
Definition truthy_value (v : property_value) : bool :=
  match v with
  | PUser _ | PProfile _ | PFunction _ | PObjectPrototype => true
  | PString s => bool_decide (s ≠ "")
  | PJson j => truthy_json j
  | PUndefined => false
  end.

(** [v.profile?.key], where [key] is [display_name] or [image_72] and
    [typed] is that field of a user's profile. Read from a user it is a
    string; read from anything else found under the key it is whatever
    is there. *)
Definition profile_property (typed : SlackUser.profile → option string)
    (key : string) (v : property_value) : option json :=
  match v with
  | PUser u => JStr <$> (p ← SlackUser.profile_of u; typed p)
  | PProfile p => json_get key (SlackUser.profile_other p !! "profile")
  | PJson j => json_get key (json_get "profile" (Some j))
  | _ => None
  end.

(** [v.key], where [key] is [real_name] or [name] and [typed] is that
    field of a user; a function has a [name]. *)
Definition string_property (typed : SlackUser.t → option string)
    (key : string) (v : property_value) : option json :=
  match v with
  | PUser u => JStr <$> typed u
  | PProfile p => SlackUser.profile_other p !! key
  | PJson j => json_get key (Some j)
  | PFunction name =>
      if decide (key = "name") then Some (JStr name) else None
  | _ => None
  end.

(** [a || b] on properties read as decoded JSON. *)
Definition or_json (a b : option json) : option json :=
  if from_option truthy_json false a then a else b.

(** A property of an object literal whose value is not of the type the
    interface gives it is carried with the other properties. *)
Definition carry (key : string) (v : option json) (o : gmap string json)
    : gmap string json :=
  match v with
  | None | Some (JStr _) => o
  | Some j => <[key := j]> o
  end.

(** The [user_profile] object of a message: its three properties where
    they hold strings, and among [other] where they hold anything
    else. *)
Module UserProfile.
Record t := mk {
  display_name : option string;
  real_name : option string;
  image_72 : option string;
  other : gmap string json
}.
End UserProfile.

Module SlackReaction.
Record t := mk {
  name : string;
  users : list string;
  count : Z
}.
End SlackReaction.

(** A message of a channel history ([SlackMessage]). *)
Module SlackMessage.
Record t := mk {
  user : option string;
  ts : string;
  text : string;
  subtype : option string;
  reactions : option (list SlackReaction.t);
  thread_ts : option string;
  files : option (list SlackFile.t);
  user_profile : nullable UserProfile.t;
  other : gmap string json
}.

(** [{ ...message, files: fs, user_profile: p }] *)
Definition with_files_profile (message : t)
    (fs : option (list SlackFile.t)) (p : nullable UserProfile.t) : t :=
  {| user := user message;
     ts := ts message;
     text := text message;
     subtype := subtype message;
     reactions := reactions message;
     thread_ts := thread_ts message;
     files := fs;
     user_profile := p;
     other := other message |}.
End SlackMessage.

(** A channel as [conversations.list] returns it. *)
Module Conversation.
Record note := mkNote {
  value : option string;
  note_other : gmap string json
}.

Record t := mk {
  id : string;
  name : string;
  created : option Z;
  creator : option string;
  is_archived : option bool;
  is_general : option bool;
  num_members : option Z;
  purpose : option note;
  topic : option note;
  other : gmap string json
}.
End Conversation.

(** An entry of [channelData]. *)
Module ChannelInfo.
Record t := mk {
  id : string;
  name : string;
  created : option Z;
  creator : option string;
  is_archived : option bool;
  is_general : option bool;
  members : Z;
  purpose : string;
  topic : string
}.
End ChannelInfo.

(** The export snapshot ([exportData]). Its three dictionaries are
    held by their own entries, which is what the JSON answer shows of
    them. *)
Module ExportData.
Record t := mk {
  channels : gmap string ChannelInfo.t;
  messages : gmap string (list SlackMessage.t);
  users : gmap string SlackUser.t;
  exportDate : string;
  totalChannels : nat;
  totalUsers : nat;
  totalMessages : nat
}.
End ExportData.

(** ** The remote service *)

(** What a rejected call throws. *)
Record exn := mkExn {
  code : option string;
  message : string
}.

Inductive outcome (A : Type) :=
| Returned (a : A)
| Thrown (e : exn).
Arguments Returned {A} a.
Arguments Thrown {A} e.

(** [response.arrayBuffer()] yields the bytes or rejects. *)
Inductive body :=
| Bytes (bs : list Byte.byte)
| BodyError (e : exn).

Record response := mkResponse {
  ok : bool;
  status : Z;
  arrayBuffer : body
}.

(** Everything the handler runs against: the network, the Slack client,
    the clock and the bot token of [process.env]. *)
Record Runtime (World : Type) := mkRuntime {
  (** [process.env.SLACK_BOT_TOKEN] *)
  SLACK_BOT_TOKEN : string;
  (** [fetch(url, { headers: { Authorization: `Bearer ${token}` } })] *)
  fetch : string → string → World → outcome response * World;
  (** [Buffer.from(bytes).toString('base64')] *)
  base64 : list Byte.byte → string;
  (** [slack.auth.test()] *)
  auth_test : World → outcome unit * World;
  (** [slack.conversations.list(...)]: the [channels] property *)
  conversations_list : World → outcome (option (list Conversation.t)) * World;
  (** [slack.users.list(...)]: the [members] property *)
  users_list : World → outcome (option (list SlackUser.t)) * World;
  (** [slack.conversations.history({ channel, oldest, limit })]: the
      [messages] property *)
  conversations_history :
    string → Z → World → outcome (option (list SlackMessage.t)) * World;
  (** [setTimeout(resolve, ms)]: the world once [ms] milliseconds have
      passed *)
  setTimeout : Z → World → World;
  (** [Date.now()] *)
  date_now : World → Z;
  (** [new Date().toISOString()] *)
  date_iso : World → string
}.
Arguments SLACK_BOT_TOKEN {World} _.
Arguments fetch {World} _ _ _ _.
Arguments base64 {World} _ _.
Arguments auth_test {World} _ _.
Arguments conversations_list {World} _ _.
Arguments users_list {World} _ _.
Arguments conversations_history {World} _ _ _ _.
Arguments setTimeout {World} _ _ _.
Arguments date_now {World} _ _.
Arguments date_iso {World} _ _.

(** What the handler does to the outside, in order. *)
Inductive event :=
| EvAuthTest
| EvConversationsList
| EvUsersList
| EvHistory (channel : string) (oldest : Z)
| EvFetch (url : string)
| EvSleep (ms : Z).

(** ** Constants *)

(** Maximum file size to embed (5MB) *)
Definition MAX_FILE_SIZE_BYTES : Z := 5 * 1024 * 1024.

(** File types to embed as base64 *)
Definition EMBEDDABLE_MIMETYPES : list string :=
  ["image/jpeg"; "image/png"; "image/gif"; "image/webp"; "image/svg+xml"].

(** [EMBEDDABLE_MIMETYPES.includes(file.mimetype)] *)
Definition includes (l : list string) (v : option string) : bool :=
  match v with
  | Some s => bool_decide (s ∈ l)
  | None => false
  end.

(** [file.size <= MAX_FILE_SIZE_BYTES]; a missing size compares false. *)
Definition size_le (v : option Z) (bound : Z) : bool :=
  match v with
  | Some n => bool_decide (n ≤ bound)%Z
  | None => false
  end.

(** The eligibility test of [processMessageFiles]. *)
Definition shouldEmbed (file : SlackFile.t) : bool :=
  truthy_string (SlackFile.url_private file)
  && size_le (SlackFile.size file) MAX_FILE_SIZE_BYTES
  && includes EMBEDDABLE_MIMETYPES (SlackFile.mimetype file).

(** ** The handler's machine: state, exceptions, effects *)

Section Handler.
Context {World : Type} (rt : Runtime World).

(** The world outside, the effects performed so far, and the two
    dictionaries the channel loop fills in. *)
Record state := mkState {
  world : World;
  trace : list event;
  channelMessages : gmap string (list SlackMessage.t);
  channelData : gmap string ChannelInfo.t
}.

(** A computation runs on a state and returns or throws; what it did
    to the state before throwing stays done. *)
Definition M (A : Type) : Type := state → outcome A * state.

#[export] Instance M_ret : MRet M := λ A a st, (Returned a, st).

#[export] Instance M_bind : MBind M := λ A B k m st,
  match m st with
  | (Returned a, st') => k a st'
  | (Thrown e, st') => (Thrown e, st')
  end.

(** [throw e] *)
Definition throw {A} (e : exn) : M A := λ st, (Thrown e, st).

(** [try { body } catch (e) { handler }] *)
Definition try_catch {A} (body : M A) (handler : exn → M A) : M A := λ st,
  match body st with
  | (Returned a, st') => (Returned a, st')
  | (Thrown e, st') => handler e st'
  end.

(** A call to the outside: the event is recorded, the world moves on. *)
Definition call {A} (ev : event)
    (f : World → outcome A * World) : M A := λ st,
  let '(r, w) := f (world st) in
  (r, {| world := w;
         trace := trace st ++ [ev];
         channelMessages := channelMessages st;
         channelData := channelData st |}).

(** [await new Promise(resolve => setTimeout(resolve, ms))] *)
Definition sleep (ms : Z) : M unit :=
  call (EvSleep ms) (λ w, (Returned tt, setTimeout rt ms w)).

(** [channelMessages[key] = msgs] *)
Definition set_channelMessages (key : string)
    (msgs : list SlackMessage.t) : M unit := λ st,
  (Returned tt,
   {| world := world st;
      trace := trace st;
      channelMessages := set_property key msgs (channelMessages st);
      channelData := channelData st |}).

(** [channelData[key] = info] *)
Definition set_channelData (key : string) (info : ChannelInfo.t) : M unit :=
  λ st,
  (Returned tt,
   {| world := world st;
      trace := trace st;
      channelMessages := channelMessages st;
      channelData := set_property key info (channelData st) |}).

(** [const channelMessages = {}; const channelData = {};] *)
Definition new_dictionaries : M unit := λ st,
  (Returned tt,
   {| world := world st;
      trace := trace st;
      channelMessages := ∅;
      channelData := ∅ |}).

Definition get_state : M state := λ st, (Returned st, st).

(** [await Promise.all(l.map(f))], branches taken in list order. *)
Fixpoint promise_all_map {A B} (f : A → M B) (l : list A) : M (list B) :=
  match l with
  | [] => mret []
  | x :: l' =>
      y ← f x;
      ys ← promise_all_map f l';
      mret (y :: ys)
  end.

(** [for (const x of l) { f(x) }] *)
Fixpoint for_of {A} (l : list A) (f : A → M unit) : M unit :=
  match l with
  | [] => mret tt
  | x :: l' => _ ← f x; for_of l' f
  end.

(** ** Attachment embedding *)

(** Download a file from Slack and convert to base64; [None] is the
    [null] returned on failure. *)
Definition downloadFileAsBase64 (url token : string) : M (option string) :=
  try_catch
    (response ← call (EvFetch url) (fetch rt url token);
     if negb (ok response) then mret None
     else
       match arrayBuffer response with
       | Bytes bs => mret (Some (base64 rt bs))
       | BodyError e => throw e
       end)
    (λ error, mret None).

(** The callback that [processMessageFiles] maps over the files
    ([shouldEmbed] holds only of a file that has a URL). *)
Definition embed (token : string) (file : SlackFile.t) : M SlackFile.t :=
  match SlackFile.url_private file with
  | Some url =>
      if shouldEmbed file then
        base64Data ← downloadFileAsBase64 url token;
        if truthy_string base64Data
        then mret (SlackFile.with_file_data file (default "" base64Data))
        else mret file
      else mret file
  | None => mret file
  end.

(** Process files in a message and embed downloadable ones. *)
Definition processMessageFiles (files : option (list SlackFile.t))
    (token : string) : M (option (list SlackFile.t)) :=
  match files with
  | None => mret None
  | Some [] => mret (Some [])
  | Some fs =>
      processedFiles ← promise_all_map (embed token) fs;
      mret (Some processedFiles)
  end.

(** ** Message enrichment *)

(** [usersById[message.user]]: an unset id reads the key [undefined]. *)
Definition lookup_user (usersById : UsersById.t)
    (user : option string) : property_value :=
  get_property usersById (default "undefined" user).

(** The [user_profile] property of a transformed message. *)
Definition user_profile_of (usersById : UsersById.t)
    (user : option string) : nullable UserProfile.t :=
  let found := lookup_user usersById user in
  if truthy_value found then
    let display_name :=
      or_json
        (or_json
           (profile_property SlackUser.display_name "display_name" found)
           (string_property SlackUser.real_name "real_name" found))
        (string_property SlackUser.name "name" found) in
    let real_name :=
      or_json (string_property SlackUser.real_name "real_name" found)
        (string_property SlackUser.name "name" found) in
    let image_72 :=
      profile_property SlackUser.image_72 "image_72" found in
    Value
      {| UserProfile.display_name := json_string display_name;
         UserProfile.real_name := json_string real_name;
         UserProfile.image_72 := json_string image_72;
         UserProfile.other :=
           carry "display_name" display_name
             (carry "real_name" real_name (carry "image_72" image_72 ∅)) |}
  else Null.

(** The callback mapped over the messages of a channel history. *)
Definition transformMessage (usersById : UsersById.t)
    (message : SlackMessage.t) : M SlackMessage.t :=
  processedFiles ←
    match SlackMessage.files message with
    | Some fs => processMessageFiles (Some fs) (SLACK_BOT_TOKEN rt)
    | None => mret None
    end;
  mret (SlackMessage.with_files_profile message processedFiles
          (user_profile_of usersById (SlackMessage.user message))).

(** The same callback with the message as the object it is: an entry
    of the store of message objects, named by a reference. The callback
    reads the object its argument refers to and returns a reference to
    the object literal it builds, which is a new entry of the store.
    (The elements of a history array always refer to entries of the
    store; the last branch is there for the other references only.) *)
Definition transformMessage_at (usersById : UsersById.t)
    (message : positive) (st : state)
    (objects : gmap positive SlackMessage.t)
    : outcome positive * state * gmap positive SlackMessage.t :=
  match objects !! message with
  | Some m =>
      match transformMessage usersById m st with
      | (Returned m', st') =>
          let ref := fresh (dom objects) in
          (Returned ref, st', <[ref := m']> objects)
      | (Thrown e, st') => (Thrown e, st', objects)
      end
  | None =>
      (Thrown {| code := None; message := "message is not defined" |},
       st, objects)
  end.

(** ** Channel harvest *)

(** The object literal stored in [channelData], the same on the normal
    and on the failure path. *)
Definition channelInfo (channel : Conversation.t) : ChannelInfo.t :=
  {| ChannelInfo.id := Conversation.id channel;
     ChannelInfo.name := Conversation.name channel;
     ChannelInfo.created := Conversation.created channel;
     ChannelInfo.creator := Conversation.creator channel;
     ChannelInfo.is_archived := Conversation.is_archived channel;
     ChannelInfo.is_general := Conversation.is_general channel;
     ChannelInfo.members := or_zero (Conversation.num_members channel);
     ChannelInfo.purpose :=
       or_empty (n ← Conversation.purpose channel; Conversation.value n);
     ChannelInfo.topic :=
       or_empty (n ← Conversation.topic channel; Conversation.value n) |}.

(** [Math.floor((Date.now() - (30 * 24 * 60 * 60 * 1000)) / 1000)] *)
Definition thirtyDaysAgo (w : World) : Z :=
  ((date_now rt w - 30 * 24 * 60 * 60 * 1000) / 1000)%Z.

(** The [try] block of the channel loop. *)
Definition harvest_try (usersById : UsersById.t)
    (channel : Conversation.t) : M unit :=
  st ← get_state;
  let oldest := thirtyDaysAgo (world st) in
  historyResponse ←
    call (EvHistory (Conversation.id channel) oldest)
      (conversations_history rt (Conversation.id channel) oldest);
  let messages := default [] historyResponse in
  transformedMessages ← promise_all_map (transformMessage usersById) messages;
  _ ← set_channelMessages (Conversation.name channel) transformedMessages;
  _ ← set_channelData (Conversation.name channel) (channelInfo channel);
  sleep 100.

(** The [catch] block of the channel loop. *)
Definition harvest_catch (channel : Conversation.t) (channelError : exn)
    : M unit :=
  _ ← set_channelMessages (Conversation.name channel) [];
  set_channelData (Conversation.name channel) (channelInfo channel).

(** One turn of the channel loop. *)
Definition harvest (usersById : UsersById.t)
    (channel : Conversation.t) : M unit :=
  try_catch (harvest_try usersById channel) (harvest_catch channel).

(** ** Export aggregation *)

(** [users.forEach(user => { usersById[user.id] = user; })] *)
Definition build_usersById (users : list SlackUser.t) : UsersById.t :=
  foldl (λ usersById user, set_user (SlackUser.id user) user usersById) ∅ users.

(** [Object.values(o)] *)
Definition object_values {A} (o : gmap string A) : list A :=
  (map_to_list o).*2.

(** [Object.values(channelMessages).reduce((sum, msgs) => sum + msgs.length, 0)] *)
Definition count_messages (channelMessages : gmap string (list SlackMessage.t))
    : nat :=
  foldl (λ sum msgs, sum + length msgs) 0 (object_values channelMessages).

(** The handler from the channel loop to the export data structure,
    given the listed channels and users. *)
Definition export_listed (channels : list Conversation.t)
    (users : list SlackUser.t) : M ExportData.t :=
  let usersById := build_usersById users in
  _ ← new_dictionaries;
  _ ← for_of channels (harvest usersById);
  st ← get_state;
  mret {| ExportData.channels := channelData st;
          ExportData.messages := channelMessages st;
          ExportData.users := UsersById.entries usersById;
          ExportData.exportDate := date_iso rt (world st);
          ExportData.totalChannels := length channels;
          ExportData.totalUsers := length users;
          ExportData.totalMessages := count_messages (channelMessages st) |}.

(** The handler from the workspace check to the export data structure;
    whatever it throws is answered by the handler with an error status. *)
Definition exportData : M ExportData.t :=
  authTest ← call EvAuthTest (auth_test rt);
  channelsResponse ← call EvConversationsList (conversations_list rt);
  let channels := default [] channelsResponse in
  usersResponse ← call EvUsersList (users_list rt);
  let users := default [] usersResponse in
  export_listed channels users.

End Handler.

Arguments state : clear implicits.
Arguments M : clear implicits.

(** ** The request handler around the export *)

(** [req.body], decoded from the request: [undefined], [null], or a
    value whose [passkey] property is unset or holds a decoded JSON
    value. *)
Inductive request_body :=
| NoBody
| NullBody
| Body (passkey : option json).

Record request := mkRequest {
  method : string;
  body_of : request_body
}.

(** The JSON documents the handler answers with. *)
Inductive answer :=
| ErrorJson (error : string) (details : option string)
| SuccessJson (data : ExportData.t) (summary : string).

Record reply := mkReply {
  statusCode : Z;
  payload : answer
}.

(** What the passkey check runs against: the SHA-256 hex digest of
    [crypto], the wording of the [TypeError] its [update] throws for
    data that is not a string, and [process.env.ADMIN_PASSKEY_HASH]. *)
Record Access := mkAccess {
  secureHash : string → string;
  invalid_data_message : json → string;
  ADMIN_PASSKEY_HASH : option string
}.

(** The [catch] block of the handler: the answer to an exception of the
    export, chosen by [error.code]. *)
Definition answer_error (error : exn) : reply :=
  if decide (code error = Some "not_authed") then
    {| statusCode := 401;
       payload := ErrorJson
                 "Slack authentication failed. Please check your bot token."
                 None |}
  else if decide (code error = Some "missing_scope") then
    {| statusCode := 403;
       payload := ErrorJson
                 "Insufficient Slack permissions. Bot needs channels:read, channels:history, users:read scopes."
                 None |}
  else if decide (code error = Some "rate_limited") then
    {| statusCode := 429;
       payload := ErrorJson "Rate limited by Slack API. Please try again later."
                 None |}
  else
    {| statusCode := 500;
       payload := ErrorJson "Failed to export Slack data" (Some (message error)) |}.

(** [`Successfully exported ${totalChannels} channels with ${totalMessages} messages`] *)
Definition success_summary (data : ExportData.t) : string :=
  "Successfully exported " +:+ pretty (ExportData.totalChannels data)
  +:+ " channels with " +:+ pretty (ExportData.totalMessages data)
  +:+ " messages".

Section Trigger.
Context {World : Type} (rt : Runtime World) (access : Access).

(** The exported function: the checks of the request, the export, and
    the answer. An unset [SLACK_BOT_TOKEN] is the empty token. A truthy
    passkey that is not a string makes the digest throw, inside the
    [try]. *)
Definition handler (req : request) : M World reply :=
  if bool_decide (method req ≠ "POST") then
    mret {| statusCode := 405; payload := ErrorJson "Method not allowed" None |}
  else
    try_catch
      (match body_of req with
       | NoBody =>
           throw {| code := None;
                    message := "Cannot destructure property 'passkey' of 'req.body' as it is undefined." |}
       | NullBody =>
           throw {| code := None;
                    message := "Cannot destructure property 'passkey' of 'req.body' as it is null." |}
       | Body passkey =>
           if negb (from_option truthy_json false passkey) then
             mret {| statusCode := 401;
                     payload := ErrorJson "Authentication required" None |}
           else
             match passkey with
             | Some (JStr passkey) =>
                 if bool_decide
                      (Some (secureHash access passkey)
                       ≠ ADMIN_PASSKEY_HASH access) then
                   mret {| statusCode := 401;
                           payload := ErrorJson "Admin access required" None |}
                 else if bool_decide (SLACK_BOT_TOKEN rt = "") then
                   mret {| statusCode := 500;
                           payload := ErrorJson
                                        "Slack bot token not configured. Please set SLACK_BOT_TOKEN environment variable."
                                        None |}
                 else
                   data ← exportData rt;
                   mret {| statusCode := 200;
                           payload := SuccessJson data (success_summary data) |}
             | Some data =>
                 throw {| code := Some "ERR_INVALID_ARG_TYPE";
                          message := invalid_data_message access data |}
             | None =>
                 mret {| statusCode := 401;
                         payload := ErrorJson "Authentication required" None |}
             end
       end)
      (λ error, mret (answer_error error)).

End Trigger.

(** ** The viewer's rendering of an attachment *)

(** A string-valued property kept among the unread fields of a file
    ([filetype], [permalink], ...). *)
Definition file_string (key : string) (file : SlackFile.t) : option string :=
  match SlackFile.other file !! key with
  | Some (JStr s) => Some s
  | _ => None
  end.

(** [s.toLowerCase()] on the letters A to Z, which is all that matters
    for membership among the lower-case ASCII file types below. *)
Definition lower_ascii (c : Ascii.ascii) : Ascii.ascii :=
  let n := Ascii.nat_of_ascii c in
  if bool_decide (65 ≤ n ≤ 90) then Ascii.ascii_of_nat (n + 32) else c.

Fixpoint toLowerCase (s : string) : string :=
  match s with
  | EmptyString => EmptyString
  | String c s' => String (lower_ascii c) (toLowerCase s')
  end.

(** [file.mimetype?.startsWith('image/') ||
     ['jpg', 'jpeg', 'png', 'gif', 'webp', 'svg']
       .includes(file.filetype?.toLowerCase() || '')] *)
Definition isImage (file : SlackFile.t) : bool :=
  match SlackFile.mimetype file with
  | Some m => String.prefix "image/" m
  | None => false
  end
  || bool_decide
       (default "" (or_string (toLowerCase <$> file_string "filetype" file)
                      (Some ""))
        ∈ ["jpg"; "jpeg"; "png"; "gif"; "webp"; "svg"]).

(** [`${v}`] *)
Definition template (v : option string) : string := default "undefined" v.

(** [`data:${file.file_data_mimetype || file.mimetype};base64,${file.file_data}`] *)
Definition data_uri (file : SlackFile.t) : string :=
  "data:"
  +:+ template (or_string (SlackFile.file_data_mimetype file)
                  (SlackFile.mimetype file))
  +:+ ";base64," +:+ template (SlackFile.file_data file).

(** The [src] of the [img] an image attachment is shown with: the
    embedded data when there is some, the Slack URL otherwise. *)
Definition image_src (file : SlackFile.t) : option string :=
  if truthy_string (SlackFile.file_data file)
  then Some (data_uri file)
  else or_string (SlackFile.url_private file) (file_string "permalink" file).

(** * Predicates used by the statements *)

Section Predicates.
Context {World : Type} (rt : Runtime World).

(** The two dictionaries of the channel loop are the same in both
    states. *)
Definition same_dictionaries (st st' : state World) : Prop :=
  channelMessages st' = channelMessages st ∧ channelData st' = channelData st.

(** The computation touches neither dictionary, whether it returns or
    throws. *)
Definition keeps_dictionaries {A} (m : M World A) : Prop :=
  ∀ st, same_dictionaries st (m st).2.

(** The computation cannot throw. *)
Definition returns {A} (m : M World A) : Prop :=
  ∀ st, ∃ a st', m st = (Returned a, st').

(** The download of [url] fails in world [w]: the request is rejected
    (network error, timeout), the status is not a success, or reading
    the body rejects. *)
Definition fetch_failed (url token : string) (w : World) : Prop :=
  match (fetch rt url token w).1 with
  | Thrown _ => True
  | Returned resp => ok resp = false ∨ ∃ e, arrayBuffer resp = BodyError e
  end.

(** Every field [file] has is in [file'] with the same value. *)
Definition keeps_every_field (file file' : SlackFile.t) : Prop :=
  SlackFile.url_private file' = SlackFile.url_private file ∧
  SlackFile.size file' = SlackFile.size file ∧
  SlackFile.mimetype file' = SlackFile.mimetype file ∧
  SlackFile.other file' = SlackFile.other file ∧
  (∀ d, SlackFile.file_data file = Some d →
        SlackFile.file_data file' = Some d) ∧
  (∀ t, SlackFile.file_data_mimetype file = Some t →
        SlackFile.file_data_mimetype file' = Some t).

(** [file'] carries a populated payload. *)
Definition has_payload (file' : SlackFile.t) : Prop :=
  (∃ d, d ≠ "" ∧ SlackFile.file_data file' = Some d) ∧
  is_Some (SlackFile.file_data_mimetype file').

(** The output is the input, or the input with every field unchanged
    plus a populated payload. *)
Definition input_or_input_plus_payload (file file' : SlackFile.t) : Prop :=
  file' = file ∨ (keeps_every_field file file' ∧ has_payload file').

(** [file'] is what some run of [embed] returns for [file]. *)
Definition embedded (token : string) (file file' : SlackFile.t) : Prop :=
  ∃ st st', embed rt token file st = (Returned file', st').

(** The sum, over the channel bundles of a message mapping, of the
    length of the bundle's message list. *)
Definition sum_of_bundle_lengths
    (messages : gmap string (list SlackMessage.t)) : nat :=
  sum_list ((λ bundle, length bundle.2) <$> map_to_list messages).

(** [channelData] after the loop went over [channels]. *)
Definition channelData_after (channels : list Conversation.t)
    (channelData : gmap string ChannelInfo.t) : gmap string ChannelInfo.t :=
  foldl
    (λ data channel,
       set_property (Conversation.name channel) (channelInfo channel) data)
    channelData channels.

(** [preferred], falling back to [fallback] when it is missing or
    empty. *)
Definition falling_back (preferred fallback : option string) : option string :=
  match preferred with
  | Some s => if decide (s = "") then fallback else Some s
  | None => fallback
  end.

(** The computation only adds to the record of effects. *)
Definition extends_trace {A} (m : M World A) : Prop :=
  ∀ st, trace st `prefix_of` trace (m st).2.

End Predicates.

(** * A small workspace to run the handler on *)

Definition demo_png : SlackFile.t :=
  {| SlackFile.url_private := Some "https://files.slack.com/T1/F1/plan.png";
     SlackFile.size := Some 2097152%Z;
     SlackFile.mimetype := Some "image/png";
     SlackFile.file_data := None;
     SlackFile.file_data_mimetype := None;
     SlackFile.other := {[ "id" := JStr "F1"; "name" := JStr "plan.png" ]} |}.

Definition demo_pdf : SlackFile.t :=
  {| SlackFile.url_private := Some "https://files.slack.com/T1/F2/notes.pdf";
     SlackFile.size := Some 4096%Z;
     SlackFile.mimetype := Some "application/pdf";
     SlackFile.file_data := None;
     SlackFile.file_data_mimetype := None;
     SlackFile.other := {[ "id" := JStr "F2" ]} |}.

(** A descriptor that already carries a payload. *)
Definition demo_embedded_png : SlackFile.t :=
  {| SlackFile.url_private := Some "https://files.slack.com/T1/F1/plan.png";
     SlackFile.size := Some 2097152%Z;
     SlackFile.mimetype := Some "image/png";
     SlackFile.file_data := Some "T0xE";
     SlackFile.file_data_mimetype := Some "image/png";
     SlackFile.other := {[ "id" := JStr "F1" ]} |}.

(** A member with only the handle set. *)
Definition demo_bob : SlackUser.t :=
  {| SlackUser.id := "U1";
     SlackUser.name := Some "bob";
     SlackUser.real_name := None;
     SlackUser.profile_of := None;
     SlackUser.other := ∅ |}.




Definition demo_message : SlackMessage.t :=
  {| SlackMessage.user := Some "U1";
     SlackMessage.ts := "1700000000.000100";
     SlackMessage.text := "plan attached";
     SlackMessage.subtype := None;
     SlackMessage.reactions :=
       Some [ {| SlackReaction.name := "tada";
                 SlackReaction.users := ["U1"];
                 SlackReaction.count := 1 |} ];
     SlackMessage.thread_ts := None;
     SlackMessage.files := Some [demo_png; demo_pdf];
     SlackMessage.user_profile := Undefined;
     SlackMessage.other := {[ "type" := JStr "message" ]} |}.

(** A system message: no author. *)
Definition demo_notice_at (ts : string) : SlackMessage.t :=
  {| SlackMessage.user := None;
     SlackMessage.ts := ts;
     SlackMessage.text := "joined the channel";
     SlackMessage.subtype := Some "channel_join";
     SlackMessage.reactions := None;
     SlackMessage.thread_ts := None;
     SlackMessage.files := None;
     SlackMessage.user_profile := Undefined;
     SlackMessage.other := ∅ |}.

Definition demo_notice : SlackMessage.t := demo_notice_at "1700000000.000200".

(** A message whose author id is [constructor]; no user has that id. *)
Definition demo_constructor_message : SlackMessage.t :=
  {| SlackMessage.user := Some "constructor";
     SlackMessage.ts := "1700000000.000600";
     SlackMessage.text := "hello";
     SlackMessage.subtype := None;
     SlackMessage.reactions := None;
     SlackMessage.thread_ts := None;
     SlackMessage.files := None;
     SlackMessage.user_profile := Undefined;
     SlackMessage.other := ∅ |}.

(** Five messages, the first with two files attached. *)
Definition demo_history : list SlackMessage.t :=
  demo_message ::
  (demo_notice_at <$>
     ["1700000000.000200"; "1700000000.000300"; "1700000000.000400";
      "1700000000.000500"]).

Definition demo_channel (id name : string) (archived : bool)
    : Conversation.t :=
  {| Conversation.id := id;
     Conversation.name := name;
     Conversation.created := Some 1600000000%Z;
     Conversation.creator := Some "U1";
     Conversation.is_archived := Some archived;
     Conversation.is_general := Some false;
     Conversation.num_members := Some 3%Z;
     Conversation.purpose :=
       Some {| Conversation.value := Some "day to day";
               Conversation.note_other := ∅ |};
     Conversation.topic := None;
     Conversation.other := ∅ |}.

Definition demo_general : Conversation.t := demo_channel "C1" "general" false.
Definition demo_secret_ops : Conversation.t :=
  demo_channel "C2" "secret-ops" false.
(** An archived channel whose name is the one of [demo_general]. *)
Definition demo_general_archived : Conversation.t :=
  demo_channel "C3" "general" true.
(** A channel whose name is [__proto__]. *)
Definition demo_proto_channel : Conversation.t :=
  demo_channel "C4" "__proto__" false.

(** A service that lists the given channels and users, serves the
    history of [C1] only (any other channel is refused for a missing
    scope) and serves every file. *)
Definition demo_runtime (channels : list Conversation.t)
    (users : list SlackUser.t) : Runtime unit :=
  {| SLACK_BOT_TOKEN := "xoxb-demo";
     fetch := λ url token w,
       (Returned {| ok := true; status := 200;
                    arrayBuffer := Bytes [Byte.x4e; Byte.x45; Byte.x57] |}, w);
     base64 := λ bs, match bs with [] => "" | _ => "TkVX" end;
     auth_test := λ w, (Returned tt, w);
     conversations_list := λ w, (Returned (Some channels), w);
     users_list := λ w, (Returned (Some users), w);
     conversations_history := λ channel oldest w,
       if decide (channel = "C1")
       then (Returned (Some demo_history), w)
       else (Thrown {| code := Some "missing_scope";
                       message := "An API error occurred: missing_scope" |},
             w);
     setTimeout := λ ms w, w;
     date_now := λ w, 1700000000000%Z;
     date_iso := λ w, "2023-11-14T22:13:20.000Z" |}.

Definition demo_start : state unit :=
  {| world := tt; trace := []; channelMessages := ∅; channelData := ∅ |}.

(** * Accounting of requests, and access *)

(** The URL [embed] downloads for a file, if it downloads any. *)
Definition eligible_url (file : SlackFile.t) : option string :=
  if shouldEmbed file then SlackFile.url_private file else None.

(** The downloads due for a list of files, for a message and for a
    channel history. *)
Definition fetches_of_files (files : list SlackFile.t) : list event :=
  EvFetch <$> omap eligible_url files.

Definition fetches_of_message (message : SlackMessage.t) : list event :=
  fetches_of_files (default [] (SlackMessage.files message)).

Definition fetches_of_history (messages : list SlackMessage.t) : list event :=
  concat (fetches_of_message <$> messages).

(** The channels whose history a record of effects asks for, in order. *)
Definition history_requests (tr : list event) : list string :=
  omap (λ ev, match ev with EvHistory channel _ => Some channel | _ => None end)
    tr.

(** The request passes the checks in front of the export: it is a POST
    whose passkey is a non-empty string that hashes to the configured
    admin hash. *)
Definition authorized (access : Access) (req : request) : Prop :=
  method req = "POST" ∧
  ∃ passkey, body_of req = Body (Some (JStr passkey)) ∧ passkey ≠ "" ∧
             ADMIN_PASSKEY_HASH access = Some (secureHash access passkey).

(** The workspace check, the channel listing or the user listing,
    whichever is reached first in world [w], throws [e]. *)
Definition listing_fails {World : Type} (rt : Runtime World) (w : World)
    (e : exn) : Prop :=
  (∃ w', auth_test rt w = (Thrown e, w')) ∨
  (∃ w1 w', auth_test rt w = (Returned tt, w1) ∧
            conversations_list rt w1 = (Thrown e, w')) ∨
  (∃ w1 channelsResponse w2 w',
     auth_test rt w = (Returned tt, w1) ∧
     conversations_list rt w1 = (Returned channelsResponse, w2) ∧
     users_list rt w2 = (Thrown e, w')).

(** [channel] is listed at position [j], and no channel listed after
    it has its name. *)
Definition last_named (channels : list Conversation.t) (j : nat)
    (channel : Conversation.t) : Prop :=
  channels !! j = Some channel ∧
  ∀ k (later : Conversation.t), j < k → channels !! k = Some later →
             Conversation.name later ≠ Conversation.name channel.

(** The names under which the channel loop leaves entries: those of the
    listed channels, except [__proto__]. *)
Definition entry_names (channels : list Conversation.t) : list string :=
  filter (λ name, name ≠ "__proto__") (Conversation.name <$> channels).

(** The answer carries a snapshot. *)
Definition carries_data (r : reply) : Prop :=
  ∃ data summary, payload r = SuccessJson data summary.

(** A stand-in digest, a stand-in wording of the digest's refusal, and
    the hash of the passkey [letmein]. *)
Definition demo_access : Access :=
  {| secureHash := λ s, "sha256:" +:+ s;
     invalid_data_message := λ data,
       "The data argument must be of type string or an instance of Buffer, TypedArray, or DataView.";
     ADMIN_PASSKEY_HASH := Some "sha256:letmein" |}.

Definition demo_request (passkey : string) : request :=
  {| method := "POST"; body_of := Body (Some (JStr passkey)) |}.

(** A service whose workspace check is rejected for rate limiting. *)
Definition demo_limited_runtime : Runtime unit :=
  {| SLACK_BOT_TOKEN := "xoxb-demo";
     fetch := fetch (demo_runtime [] []);
     base64 := base64 (demo_runtime [] []);
     auth_test := λ w,
       (Thrown {| code := Some "rate_limited";
                  message := "A rate-limit has been reached" |}, w);
     conversations_list := conversations_list (demo_runtime [] []);
     users_list := users_list (demo_runtime [] []);
     conversations_history := conversations_history (demo_runtime [] []);
     setTimeout := λ ms w, w;
     date_now := λ w, 1700000000000%Z;
     date_iso := λ w, "2023-11-14T22:13:20.000Z" |}.

(** A service that serves an empty body for every file. *)
Definition demo_empty_files_runtime : Runtime unit :=
  {| SLACK_BOT_TOKEN := "xoxb-demo";
     fetch := λ url token w,
       (Returned {| ok := true; status := 200; arrayBuffer := Bytes [] |}, w);
     base64 := base64 (demo_runtime [] []);
     auth_test := auth_test (demo_runtime [] []);
     conversations_list := conversations_list (demo_runtime [] []);
     users_list := users_list (demo_runtime [] []);
     conversations_history := conversations_history (demo_runtime [] []);
     setTimeout := λ ms w, w;
     date_now := λ w, 1700000000000%Z;
     date_iso := λ w, "2023-11-14T22:13:20.000Z" |}.


(** * Properties *)

Section Properties.
Context {World : Type} (rt : Runtime World).

(** ** Assignments to a plain object *)

Lemma lookup_set_property_eq {A} key (v : A) (o : gmap string A) :
  key ≠ "__proto__" → set_property key v o !! key = Some v.
Proof.
  intros Hkey. unfold set_property. rewrite decide_False by done.
  apply lookup_insert_eq.
Qed.

Lemma lookup_set_property_ne {A} key key' (v : A) (o : gmap string A) :
  key ≠ key' → set_property key v o !! key' = o !! key'.
Proof.
  intros Hne. unfold set_property. case_decide; [done|].
  by apply lookup_insert_ne.
Qed.

Lemma lookup_set_property_proto {A} key (v : A) (o : gmap string A) :
  o !! "__proto__" = None → set_property key v o !! "__proto__" = None.
Proof.
  intros Hnone. unfold set_property. case_decide as Hkey; [done|].
  by rewrite lookup_insert_ne.
Qed.

Lemma dom_set_property {A} key (v : A) (o : gmap string A) :
  dom (set_property key v o) =
    dom o ∪ list_to_set (filter (λ name, name ≠ "__proto__") [key]).
Proof.
  unfold set_property. rewrite filter_cons, filter_nil.
  case_decide as Hkey.
  - rewrite decide_False by (intros Hne; by apply Hne).
    simpl. by rewrite (right_id_L ∅ (∪)).
  - rewrite decide_True by done. rewrite dom_insert_L. simpl.
    by rewrite (right_id_L ∅ (∪)), (comm_L (∪)).
Qed.

Lemma entry_names_cons channel channels :
  entry_names (channel :: channels) =
    filter (λ name, name ≠ "__proto__") [Conversation.name channel]
    ++ entry_names channels.
Proof.
  unfold entry_names. rewrite fmap_cons.
  exact (filter_app _ [Conversation.name channel]
           (Conversation.name <$> channels)).
Qed.

Lemma entry_names_ordinary channels :
  "__proto__" ∉ Conversation.name <$> channels →
  entry_names channels = Conversation.name <$> channels.
Proof.
  unfold entry_names. induction (Conversation.name <$> channels) as [|n l IH];
    [done|].
  rewrite not_elem_of_cons. intros [Hne Hl].
  rewrite filter_cons, decide_True by done. by rewrite IH.
Qed.

(** ** Sequencing, exceptions and the two dictionaries *)

Lemma same_dictionaries_refl (st : state World) : same_dictionaries st st.
Proof. by split. Qed.

Lemma same_dictionaries_trans (st1 st2 st3 : state World) :
  same_dictionaries st1 st2 → same_dictionaries st2 st3 →
  same_dictionaries st1 st3.
Proof. intros [? ?] [? ?]; split; congruence. Qed.

Lemma keeps_ret {A} (a : A) : keeps_dictionaries (World := World) (mret a).
Proof. intros st. apply same_dictionaries_refl. Qed.

Lemma keeps_bind {A B} (m : M World A) (k : A → M World B) :
  keeps_dictionaries m → (∀ a, keeps_dictionaries (k a)) →
  keeps_dictionaries (m ≫= k).
Proof.
  intros Hm Hk st. specialize (Hm st).
  unfold mbind, M_bind. destruct (m st) as [[a|e] st'] eqn:E; simpl in *.
  - eapply same_dictionaries_trans; [exact Hm | apply Hk].
  - exact Hm.
Qed.

Lemma keeps_promise_all_map {A B} (f : A → M World B) l :
  (∀ x, keeps_dictionaries (f x)) → keeps_dictionaries (promise_all_map f l).
Proof.
  intros Hf. induction l as [|x l IH]; simpl.
  - apply keeps_ret.
  - apply keeps_bind; [apply Hf|]. intros y.
    apply keeps_bind; [apply IH|]. intros ys. apply keeps_ret.
Qed.

Lemma returns_ret {A} (a : A) : returns (World := World) (mret a).
Proof. intros st. by exists a, st. Qed.

Lemma returns_bind {A B} (m : M World A) (k : A → M World B) :
  returns m → (∀ a, returns (k a)) → returns (m ≫= k).
Proof.
  intros Hm Hk st. destruct (Hm st) as (a & st' & E).
  unfold mbind, M_bind. rewrite E. apply Hk.
Qed.

Lemma returns_try_catch {A} (body : M World A) (handler : exn → M World A) :
  (∀ e, returns (handler e)) → returns (try_catch body handler).
Proof.
  intros Hk st. unfold try_catch.
  destruct (body st) as [[a|e] st'] eqn:E; [by exists a, st' | apply Hk].
Qed.

Lemma returns_promise_all_map {A B} (f : A → M World B) l :
  (∀ x, returns (f x)) → returns (promise_all_map f l).
Proof.
  intros Hf. induction l as [|x l IH]; simpl.
  - apply returns_ret.
  - apply returns_bind; [apply Hf|]. intros y.
    apply returns_bind; [apply IH|]. intros ys. apply returns_ret.
Qed.

(** A mapped list of computations yields one result per element, in
    order, each being what its call returned. *)
Lemma promise_all_map_Forall2 {A B} (f : A → M World B) l st ys st' :
  promise_all_map f l st = (Returned ys, st') →
  Forall2 (λ x y, ∃ s s', f x s = (Returned y, s')) l ys.
Proof.
  revert st ys st'. induction l as [|x l IH]; simpl; intros st ys st' E.
  - unfold mret, M_ret in E. inversion E; subst. constructor.
  - unfold mbind, M_bind, mret, M_ret in E.
    destruct (f x st) as [[y|e] st1] eqn:E1; [|discriminate].
    destruct (promise_all_map f l st1) as [[zs|e] st2] eqn:E2; [|discriminate].
    inversion E; subst. constructor; eauto.
Qed.

(** ** Attachment embedding *)

Lemma downloadFileAsBase64_run url token st :
  ∃ r w,
    downloadFileAsBase64 rt url token st =
      (Returned r,
       {| world := w;
          trace := trace st ++ [EvFetch url];
          channelMessages := channelMessages st;
          channelData := channelData st |}) ∧
    (fetch_failed rt url token (world st) → r = None).
Proof.
  unfold downloadFileAsBase64, fetch_failed, try_catch, mbind, M_bind, call.
  destruct (fetch rt url token (world st)) as [[resp|e] w]; simpl.
  - destruct (ok resp) eqn:Hok; simpl.
    + destruct (arrayBuffer resp) as [bs|e] eqn:Hbody; simpl.
      * eexists _, _; split; [done|]. intros [?|[e ?]]; done.
      * by eexists _, _.
    + by eexists _, _.
  - by eexists _, _.
Qed.

Lemma shouldEmbed_mimetype file :
  shouldEmbed file = true → is_Some (SlackFile.mimetype file).
Proof.
  unfold shouldEmbed, includes. intros H.
  apply andb_prop in H as [_ H]. by destruct (SlackFile.mimetype file).
Qed.

Lemma embed_run token file st :
  ∃ file' st',
    embed rt token file st = (Returned file', st') ∧
    same_dictionaries st st' ∧
    (file' = file ∨
     ∃ d, d ≠ "" ∧ file' = SlackFile.with_file_data file d ∧
          shouldEmbed file = true) ∧
    (∀ url, SlackFile.url_private file = Some url →
            fetch_failed rt url token (world st) → file' = file).
Proof.
  unfold embed.
  destruct (SlackFile.url_private file) as [url|] eqn:Hurl;
    [|exists file, st; split; [done|]; split; [by split|]; split;
      [by left | done]].
  destruct (shouldEmbed file) eqn:Hs;
    [|exists file, st; split; [done|]; split; [by split|]; split;
      [by left | done]].
  destruct (downloadFileAsBase64_run url token st) as (r & w & E & Hfail).
  unfold mbind, M_bind. rewrite E.
  destruct r as [d|]; simpl.
  - case_bool_decide as Hd; simpl.
    + eexists _, _; split; [done|]. split; [by split|]. split.
      * right. by exists d.
      * intros url' [= <-] Hf. by specialize (Hfail Hf).
    + eexists _, _; split; [done|]. split; [by split|]. split; [by left|].
      done.
  - eexists _, _; split; [done|]. split; [by split|]. split; [by left|].
    done.
Qed.

(** The same, with the payload traced to the response it came from. *)
Lemma embed_payload_run token file st :
  ∃ file' st',
    embed rt token file st = (Returned file', st') ∧
    (file' = file ∨
     ∃ url resp w bs,
       SlackFile.url_private file = Some url ∧
       fetch rt url token (world st) = (Returned resp, w) ∧
       ok resp = true ∧
       arrayBuffer resp = Bytes bs ∧
       base64 rt bs ≠ "" ∧
       shouldEmbed file = true ∧
       file' = SlackFile.with_file_data file (base64 rt bs)).
Proof.
  unfold embed.
  destruct (SlackFile.url_private file) as [url|] eqn:Hurl;
    [|exists file, st; split; [done | by left]].
  destruct (shouldEmbed file) eqn:Hs;
    [|exists file, st; split; [done | by left]].
  unfold downloadFileAsBase64, try_catch, mbind, M_bind, call.
  destruct (fetch rt url token (world st)) as [[resp|e] w] eqn:Hfetch; simpl;
    [|eexists _, _; split; [done | by left]].
  destruct (ok resp) eqn:Hok; simpl;
    [|eexists _, _; split; [done | by left]].
  destruct (arrayBuffer resp) as [bs|e] eqn:Hbody; simpl;
    [|eexists _, _; split; [done | by left]].
  case_bool_decide as Hd; simpl.
  - eexists _, _. split; [done|]. right. by exists url, resp, w, bs.
  - eexists _, _. split; [done | by left].
Qed.

Lemma embed_skips token file st :
  shouldEmbed file = false → embed rt token file st = (Returned file, st).
Proof.
  intros Hs. unfold embed. rewrite Hs.
  by destruct (SlackFile.url_private file).
Qed.

Lemma returns_embed token file : returns (embed rt token file).
Proof.
  intros st. destruct (embed_run token file st) as (f & st' & E & _). eauto.
Qed.

Lemma keeps_embed token file : keeps_dictionaries (embed rt token file).
Proof.
  intros st. destruct (embed_run token file st) as (f & st' & E & H & _).
  by rewrite E.
Qed.

(** C4. A file for which the eligibility test fails (no fetchable URL,
    a size strictly above 5 MiB, or a mimetype outside the five image
    types) comes back from [embed] identical, and the machine state is
    untouched: no request was made. *)
Theorem embed_ineligible_identity token file st :
  SlackFile.url_private file = None ∨ SlackFile.url_private file = Some "" ∨
  (∃ n, SlackFile.size file = Some n ∧ (5 * 1024 * 1024 < n)%Z) ∨
  SlackFile.mimetype file ∉
    [Some "image/jpeg"; Some "image/png"; Some "image/gif";
     Some "image/webp"; Some "image/svg+xml"] →
  embed rt token file st = (Returned file, st).
Proof.
  intros H. apply embed_skips. unfold shouldEmbed.
  destruct H as [H|[H|[(n & H & Hn)|H]]].
  - by rewrite H.
  - by rewrite H.
  - rewrite H. simpl. rewrite bool_decide_eq_false_2;
      [by rewrite andb_false_r | unfold MAX_FILE_SIZE_BYTES; lia].
  - destruct (SlackFile.mimetype file) as [s|]; simpl;
      [|by rewrite andb_false_r].
    rewrite (bool_decide_eq_false_2 (s ∈ EMBEDDABLE_MIMETYPES));
      [by rewrite andb_false_r|].
    intros Hin. apply H.
    exact (list_elem_of_fmap_2 Some EMBEDDABLE_MIMETYPES s Hin).
Qed.

(** C3, amended. [embed] always returns, with the input itself or with
    the input whose [file_data] is the base64 encoding, non-empty, of
    the body of the successful response to the request for the file's
    URL, and whose [file_data_mimetype] is its own mimetype, every other
    field being the input's; no field is removed; a descriptor that
    carried no payload keeps every field it had; and when the download
    fails the input comes back as it was. *)
Theorem embed_upgrade_only token file st :
  ∃ file' st',
    embed rt token file st = (Returned file', st') ∧
    (file' = file ∨
     ∃ url resp w bs,
       SlackFile.url_private file = Some url ∧
       fetch rt url token (world st) = (Returned resp, w) ∧
       ok resp = true ∧
       arrayBuffer resp = Bytes bs ∧
       base64 rt bs ≠ "" ∧
       SlackFile.file_data file' = Some (base64 rt bs) ∧
       SlackFile.file_data_mimetype file' = SlackFile.mimetype file ∧
       is_Some (SlackFile.mimetype file)) ∧
    SlackFile.url_private file' = SlackFile.url_private file ∧
    SlackFile.size file' = SlackFile.size file ∧
    SlackFile.mimetype file' = SlackFile.mimetype file ∧
    SlackFile.other file' = SlackFile.other file ∧
    (is_Some (SlackFile.file_data file) →
     is_Some (SlackFile.file_data file')) ∧
    (is_Some (SlackFile.file_data_mimetype file) →
     is_Some (SlackFile.file_data_mimetype file')) ∧
    (SlackFile.file_data file = None →
     SlackFile.file_data_mimetype file = None →
     input_or_input_plus_payload file file') ∧
    (∀ url, SlackFile.url_private file = Some url →
            fetch_failed rt url token (world st) → file' = file).
Proof.
  destruct (embed_payload_run token file st) as (file' & st' & E & Hout).
  destruct (embed_run token file st) as (file2 & st2 & E2 & _ & _ & Hfail).
  rewrite E in E2. injection E2 as <- <-.
  exists file', st'. split; [done|].
  destruct Hout as [->|(url & resp & w & bs & Hurl & Hfetch & Hok & Hbody &
                        Hd & Hs & ->)].
  - repeat split; try done; [by left | intros; by left].
  - pose proof (shouldEmbed_mimetype _ Hs) as Hm. simpl.
    repeat split; try done.
    + right. by exists url, resp, w, bs.
    + intros Hnone1 Hnone2. right. split.
      * repeat split; simpl; try done; intros ?; congruence.
      * split; [by exists (base64 rt bs) | done].
Qed.

(** ** Message enrichment *)

Lemma processMessageFiles_run files token st :
  ∃ files' st',
    processMessageFiles rt files token st = (Returned files', st') ∧
    same_dictionaries st st' ∧
    match files with
    | None => files' = None
    | Some fs => ∃ fs', files' = Some fs' ∧ Forall2 (embedded rt token) fs fs'
    end.
Proof.
  unfold processMessageFiles. destruct files as [[|f fs]|].
  - exists (Some []), st. split; [done|]. split; [by split|].
    exists []. split; [done | constructor].
  - pose proof (returns_promise_all_map (embed rt token) (f :: fs)
                  (returns_embed token) st) as (fs' & st' & E).
    pose proof (keeps_promise_all_map (embed rt token) (f :: fs)
                  (keeps_embed token) st) as Hk.
    rewrite E in Hk. unfold mbind, M_bind. rewrite E.
    exists (Some fs'), st'. split; [done|]. split; [done|].
    exists fs'. split; [done|]. by eapply promise_all_map_Forall2.
  - exists None, st. split; [done|]. by split.
Qed.

Lemma transformMessage_run usersById message st :
  ∃ files' st',
    transformMessage rt usersById message st =
      (Returned
         (SlackMessage.with_files_profile message files'
            (user_profile_of usersById (SlackMessage.user message))),
       st') ∧
    same_dictionaries st st' ∧
    match SlackMessage.files message with
    | None => files' = None
    | Some fs =>
        ∃ fs', files' = Some fs' ∧
               Forall2 (embedded rt (SLACK_BOT_TOKEN rt)) fs fs'
    end.
Proof.
  unfold transformMessage.
  destruct (SlackMessage.files message) as [fs|] eqn:Hfs.
  - destruct (processMessageFiles_run (Some fs) (SLACK_BOT_TOKEN rt) st)
      as (files' & st' & E & Hk & Hrel).
    unfold mbind, M_bind. rewrite E. by exists files', st'.
  - exists None, st. split; [done|]. by split.
Qed.

Lemma returns_transformMessage usersById message :
  returns (transformMessage rt usersById message).
Proof.
  intros st. destruct (transformMessage_run usersById message st)
    as (files' & st' & E & _). eauto.
Qed.

Lemma keeps_transformMessage usersById message :
  keeps_dictionaries (transformMessage rt usersById message).
Proof.
  intros st. destruct (transformMessage_run usersById message st)
    as (files' & st' & E & Hk & _). by rewrite E.
Qed.

(** ** Channel harvest *)

(** The [try] block throws exactly when the history call does, before
    anything was stored and before the delay; otherwise it stores the
    channel's bundle and descriptor and ends with the delay. *)
Lemma harvest_try_run usersById channel st :
  let oldest := thirtyDaysAgo rt (world st) in
  let asked :=
    trace st ++ [EvHistory (Conversation.id channel) oldest] in
  match conversations_history rt (Conversation.id channel) oldest (world st) with
  | (Thrown e, w) =>
      harvest_try rt usersById channel st =
        (Thrown e,
         {| world := w;
            trace := asked;
            channelMessages := channelMessages st;
            channelData := channelData st |})
  | (Returned historyResponse, w) =>
      ∃ transformedMessages st2,
        promise_all_map (transformMessage rt usersById)
          (default [] historyResponse)
          {| world := w;
             trace := asked;
             channelMessages := channelMessages st;
             channelData := channelData st |}
        = (Returned transformedMessages, st2) ∧
        harvest_try rt usersById channel st =
          (Returned tt,
           {| world := setTimeout rt 100 (world st2);
              trace := trace st2 ++ [EvSleep 100];
              channelMessages :=
                set_property (Conversation.name channel) transformedMessages
                  (channelMessages st);
              channelData :=
                set_property (Conversation.name channel) (channelInfo channel)
                  (channelData st) |})
  end.
Proof.
  intros oldest asked. unfold harvest_try, get_state, mbind, M_bind, call.
  fold oldest. simpl.
  destruct (conversations_history rt (Conversation.id channel) oldest (world st))
    as [[historyResponse|e] w]; simpl; [|done].
  set (st1 := {| world := w; trace := _ |}).
  pose proof (returns_promise_all_map (transformMessage rt usersById)
                (default [] historyResponse)
                (returns_transformMessage usersById) st1) as (tms & st2 & E).
  pose proof (keeps_promise_all_map (transformMessage rt usersById)
                (default [] historyResponse)
                (keeps_transformMessage usersById) st1) as [Hm Hd].
  rewrite E in Hm, Hd. simpl in Hm, Hd.
  exists tms, st2. split; [done|]. rewrite E. simpl.
  unfold set_channelMessages, set_channelData, sleep, call. simpl.
  by rewrite Hm, Hd.
Qed.

(** One turn of the loop always returns, having stored some bundle and
    the channel's descriptor under the channel's name. *)
Lemma harvest_run usersById channel st :
  ∃ msgs st',
    harvest rt usersById channel st = (Returned tt, st') ∧
    channelMessages st' =
      set_property (Conversation.name channel) msgs (channelMessages st) ∧
    channelData st' =
      set_property (Conversation.name channel) (channelInfo channel)
        (channelData st).
Proof.
  pose proof (harvest_try_run usersById channel st) as H. simpl in H.
  unfold harvest, try_catch.
  destruct (conversations_history rt _ _ _) as [[historyResponse|e] w].
  - destruct H as (tms & st2 & _ & ->). by eexists _, _.
  - rewrite H. by eexists [], _.
Qed.

Lemma for_of_cons {A} (f : A → M World unit) x l st st' :
  f x st = (Returned tt, st') → for_of (x :: l) f st = for_of l f st'.
Proof. intros E. simpl. unfold mbind, M_bind. by rewrite E. Qed.

(** The whole loop returns; [channelData] is then known exactly, and
    [channelMessages] has gained a bundle for every channel name and
    kept what it had under other names. *)
Lemma for_of_harvest_run usersById channels st :
  ∃ st',
    for_of channels (harvest rt usersById) st = (Returned tt, st') ∧
    channelData st' = channelData_after channels (channelData st) ∧
    dom (channelMessages st') =
      dom (channelMessages st) ∪ list_to_set (entry_names channels) ∧
    (∀ key, key ∉ Conversation.name <$> channels →
            channelMessages st' !! key = channelMessages st !! key).
Proof.
  revert st. induction channels as [|channel channels IH]; intros st.
  - exists st. split; [done|]. split; [done|]. split; [|done].
    simpl. by rewrite (right_id_L ∅ (∪)).
  - destruct (harvest_run usersById channel st) as (msgs & st1 & E & Hm & Hd).
    destruct (IH st1) as (st' & E' & Hd' & Hdom & Hother).
    exists st'. split; [by rewrite (for_of_cons _ _ _ _ _ E)|].
    split; [by rewrite Hd', Hd|]. split.
    + rewrite Hdom, Hm, dom_set_property, entry_names_cons, list_to_set_app_L.
      by rewrite (assoc_L (∪)).
    + intros key Hkey. rewrite fmap_cons, not_elem_of_cons in Hkey.
      destruct Hkey as [Hne Hkey]. rewrite (Hother _ Hkey), Hm.
      by rewrite lookup_set_property_ne.
Qed.


(** ** Counting the keys of a dictionary *)

Lemma size_add_le (x : string) (X : gset string) :
  size ({[x]} ∪ X) ≤ S (size X).
Proof.
  rewrite size_union_alt, size_singleton. apply le_n_S, subseteq_size.
  intros y. rewrite elem_of_difference. tauto.
Qed.

Lemma size_list_to_set_le (l : list string) :
  size (list_to_set (C := gset string) l) ≤ length l.
Proof.
  induction l as [|x l IH]; [done|]. simpl.
  etrans; [apply size_add_le|]. lia.
Qed.


(** ** Export aggregation *)

Lemma export_listed_run channels users st :
  ∃ st',
    export_listed rt channels users st =
      (Returned
         {| ExportData.channels := channelData_after channels ∅;
            ExportData.messages := channelMessages st';
            ExportData.users := UsersById.entries (build_usersById users);
            ExportData.exportDate := date_iso rt (world st');
            ExportData.totalChannels := length channels;
            ExportData.totalUsers := length users;
            ExportData.totalMessages := count_messages (channelMessages st') |},
       st') ∧
    dom (channelMessages st') = list_to_set (entry_names channels).
Proof.
  unfold export_listed, new_dictionaries, get_state, mbind, M_bind, mret, M_ret.
  set (st0 := {| world := world st; trace := _ |}).
  destruct (for_of_harvest_run (build_usersById users) channels st0)
    as (st' & E & Hd & Hdom & _).
  rewrite E. exists st'. split; [by rewrite Hd|].
  rewrite Hdom. simpl. by rewrite dom_empty_L, (left_id_L ∅ (∪)).
Qed.

Lemma exportData_listed st w1 w2 w3 channelsResponse usersResponse :
  auth_test rt (world st) = (Returned tt, w1) →
  conversations_list rt w1 = (Returned channelsResponse, w2) →
  users_list rt w2 = (Returned usersResponse, w3) →
  exportData rt st =
    export_listed rt (default [] channelsResponse) (default [] usersResponse)
      {| world := w3;
         trace := trace st ++ [EvAuthTest; EvConversationsList; EvUsersList];
         channelMessages := channelMessages st;
         channelData := channelData st |}.
Proof.
  intros Ha Hc Hu. unfold exportData, mbind, M_bind, call. simpl.
  rewrite Ha. simpl. rewrite Hc. simpl. rewrite Hu. simpl.
  by rewrite <- !app_assoc.
Qed.

Lemma dom_channelData_after channels (data : gmap string ChannelInfo.t) :
  dom (channelData_after channels data) =
    dom data ∪ list_to_set (entry_names channels).
Proof.
  revert data. induction channels as [|channel channels IH]; intros data.
  - simpl. by rewrite (right_id_L ∅ (∪)).
  - unfold channelData_after in *. cbn [foldl].
    rewrite IH, dom_set_property, entry_names_cons, list_to_set_app_L.
    by rewrite (assoc_L (∪)).
Qed.

Lemma size_named {A} (m : gmap string A) (names : list string) :
  dom m = list_to_set names → NoDup names → size m = length names.
Proof.
  intros Hdom Hnodup. rewrite <- size_dom, Hdom. by apply size_list_to_set.
Qed.

Lemma foldl_add_length {A} (l : list (list A)) (n : nat) :
  foldl (λ sum msgs, sum + length msgs) n l = n + sum_list (length <$> l).
Proof.
  revert n. induction l as [|x l IH]; intros n; [simpl; lia|].
  rewrite fmap_cons. cbn [foldl sum_list_with]. rewrite IH. unfold id. lia.
Qed.

Lemma count_messages_sum (messages : gmap string (list SlackMessage.t)) :
  count_messages messages = sum_of_bundle_lengths messages.
Proof.
  unfold count_messages, sum_of_bundle_lengths, object_values.
  rewrite foldl_add_length. simpl. f_equal.
  by rewrite <- list_fmap_compose.
Qed.

(** C1, amended. In a run whose channel listing returns N channels
    with pairwise distinct names, none of which is [__proto__],
    whichever of them fail to be harvested, the snapshot's channel
    mapping and message mapping have exactly N entries each and
    [totalChannels] is the number of entries of the channel mapping. *)
Theorem export_entries_distinct_names st w1 w2 w3 channelsResponse usersResponse :
  auth_test rt (world st) = (Returned tt, w1) →
  conversations_list rt w1 = (Returned channelsResponse, w2) →
  users_list rt w2 = (Returned usersResponse, w3) →
  NoDup (Conversation.name <$> default [] channelsResponse) →
  "__proto__" ∉ Conversation.name <$> default [] channelsResponse →
  ∃ snapshot st',
    exportData rt st = (Returned snapshot, st') ∧
    size (ExportData.channels snapshot) = length (default [] channelsResponse) ∧
    size (ExportData.messages snapshot) = length (default [] channelsResponse) ∧
    ExportData.totalChannels snapshot = size (ExportData.channels snapshot).
Proof.
  intros Ha Hc Hu Hnodup Hordinary.
  rewrite (exportData_listed _ _ _ _ _ _ Ha Hc Hu).
  set (channels := default [] channelsResponse) in *.
  destruct (export_listed_run channels (default [] usersResponse)
              {| world := w3;
                 trace :=
                   trace st ++ [EvAuthTest; EvConversationsList; EvUsersList];
                 channelMessages := channelMessages st;
                 channelData := channelData st |}) as (st' & E & Hdom).
  rewrite (entry_names_ordinary _ Hordinary) in Hdom.
  eexists _, st'. split; [exact E|]. simpl.
  assert (size (channelData_after channels ∅) = length channels) as Hsize.
  { rewrite <- (length_fmap Conversation.name). apply size_named; [|done].
    by rewrite dom_channelData_after, dom_empty_L, (left_id_L ∅ (∪)),
         (entry_names_ordinary _ Hordinary). }
  split; [done|]. split; [|done].
  rewrite <- (length_fmap Conversation.name). by apply size_named.
Qed.

(** Whatever the names, the channel mapping has one entry per distinct
    name other than [__proto__], hence at most as many entries as
    [totalChannels] counts. *)
Lemma export_entries_any_names channels users st :
  ∃ snapshot st',
    export_listed rt channels users st = (Returned snapshot, st') ∧
    ExportData.totalChannels snapshot = length channels ∧
    dom (ExportData.channels snapshot) = list_to_set (entry_names channels) ∧
    dom (ExportData.messages snapshot) = list_to_set (entry_names channels) ∧
    size (ExportData.channels snapshot) ≤ ExportData.totalChannels snapshot.
Proof.
  destruct (export_listed_run channels users st) as (st' & E & Hdom).
  eexists _, st'. split; [exact E|]. simpl.
  assert (dom (channelData_after channels ∅) =
            list_to_set (entry_names channels)) as Hnames
    by (by rewrite dom_channelData_after, dom_empty_L, (left_id_L ∅ (∪))).
  split; [done|]. split; [done|]. split; [done|].
  rewrite <- size_dom, Hnames. etrans; [apply size_list_to_set_le|].
  unfold entry_names. etrans; [apply length_filter|]. by rewrite length_fmap.
Qed.

(** C2. In every snapshot the export constructs, [totalMessages] is the
    sum, over the bundles of the snapshot's message mapping, of the
    length of the bundle; the bundles of channels whose harvest failed
    are among them, with length zero. *)
Theorem export_totalMessages_is_sum st snapshot st' :
  exportData rt st = (Returned snapshot, st') →
  ExportData.totalMessages snapshot =
    sum_of_bundle_lengths (ExportData.messages snapshot).
Proof.
  unfold exportData, mbind, M_bind. intros E.
  destruct (call EvAuthTest (auth_test rt) st) as [[[]|e] st1]; [|discriminate].
  destruct (call EvConversationsList (conversations_list rt) st1) as [[channelsResponse|e] st2];
    [|discriminate].
  destruct (call EvUsersList (users_list rt) st2) as [[usersResponse|e] st3];
    [|discriminate].
  destruct (export_listed_run (default [] channelsResponse)
              (default [] usersResponse) st3) as (st4 & E' & _).
  rewrite E' in E. inversion E; subst. simpl. apply count_messages_sum.
Qed.


(** ** The record of effects *)

Lemma extends_ret {A} (a : A) : extends_trace (World := World) (mret a).
Proof. by intros st. Qed.

Lemma extends_bind {A B} (m : M World A) (k : A → M World B) :
  extends_trace m → (∀ a, extends_trace (k a)) → extends_trace (m ≫= k).
Proof.
  intros Hm Hk st. specialize (Hm st).
  unfold mbind, M_bind. destruct (m st) as [[a|e] st'] eqn:E; simpl in *.
  - etrans; [exact Hm | apply Hk].
  - exact Hm.
Qed.

Lemma extends_promise_all_map {A B} (f : A → M World B) l :
  (∀ x, extends_trace (f x)) → extends_trace (promise_all_map f l).
Proof.
  intros Hf. induction l as [|x l IH]; simpl.
  - apply extends_ret.
  - apply extends_bind; [apply Hf|]. intros y.
    apply extends_bind; [apply IH|]. intros ys. apply extends_ret.
Qed.

Lemma extends_embed token file : extends_trace (embed rt token file).
Proof.
  intros st. unfold embed.
  destruct (SlackFile.url_private file) as [url|]; [|done].
  destruct (shouldEmbed file); [|done].
  destruct (downloadFileAsBase64_run url token st) as (r & w & E & _).
  unfold mbind, M_bind. rewrite E.
  destruct (truthy_string r); simpl; by apply prefix_app_r.
Qed.

Lemma extends_transformMessage usersById message :
  extends_trace (transformMessage rt usersById message).
Proof.
  unfold transformMessage. apply extends_bind; [|intros; apply extends_ret].
  destruct (SlackMessage.files message) as [[|f fs]|]; try apply extends_ret.
  unfold processMessageFiles.
  apply extends_bind; [|intros; apply extends_ret].
  apply extends_promise_all_map, extends_embed.
Qed.

(** Whatever a turn of the loop does, it begins by asking for the
    channel's history. *)
Lemma harvest_asks_first usersById channel st :
  trace st ++
    [EvHistory (Conversation.id channel) (thirtyDaysAgo rt (world st))]
  `prefix_of` trace (harvest rt usersById channel st).2.
Proof.
  pose proof (harvest_try_run usersById channel st) as H. simpl in H.
  unfold harvest, try_catch.
  destruct (conversations_history rt _ _ _) as [[historyResponse|e] w].
  - destruct H as (tms & st2 & E & ->). simpl.
    match type of E with _ _ _ ?s = _ =>
      pose proof (extends_promise_all_map (transformMessage rt usersById)
                    (default [] historyResponse)
                    (extends_transformMessage usersById) s) as Hp
    end.
    rewrite E in Hp. simpl in Hp. by apply prefix_app_r.
  - by rewrite H.
Qed.

(** A harvest that succeeds ends with the pacing delay. *)
Lemma harvest_success_delays usersById channel st st1 :
  harvest_try rt usersById channel st = (Returned tt, st1) →
  harvest rt usersById channel st = (Returned tt, st1) ∧
  last (trace st1) = Some (EvSleep 100).
Proof.
  intros E. unfold harvest, try_catch. rewrite E. split; [done|].
  pose proof (harvest_try_run usersById channel st) as H. simpl in H.
  destruct (conversations_history rt _ _ _) as [[historyResponse|e] w].
  - destruct H as (tms & st2 & _ & E'). rewrite E' in E.
    inversion E; subst. simpl. apply last_snoc.
  - rewrite H in E. discriminate.
Qed.

(** ** Contained failures *)

Lemma harvest_try_thrown usersById channel st e st1 :
  harvest_try rt usersById channel st = (Thrown e, st1) →
  trace st1 =
    trace st ++
      [EvHistory (Conversation.id channel) (thirtyDaysAgo rt (world st))] ∧
  same_dictionaries st st1.
Proof.
  intros E.
  pose proof (harvest_try_run usersById channel st) as H. simpl in H.
  destruct (conversations_history rt _ _ _) as [[historyResponse|e'] w].
  - destruct H as (tms & st2 & _ & E'). rewrite E' in E. discriminate.
  - rewrite H in E. inversion E; subst. by split.
Qed.

Lemma or_zero_default a : or_zero a = default 0%Z a.
Proof.
  unfold or_zero, truthy_number. destruct a as [n|]; simpl; [|done].
  case_bool_decide as Hn; simpl; [done | congruence].
Qed.

Lemma or_empty_default a : or_empty a = default "" a.
Proof.
  unfold or_empty, truthy_string. destruct a as [s|]; simpl; [|done].
  case_bool_decide as Hs; simpl; [done | congruence].
Qed.

Lemma lookup_channelData_after channels (data : gmap string ChannelInfo.t) key :
  key ∉ Conversation.name <$> channels →
  channelData_after channels data !! key = data !! key.
Proof.
  revert data. induction channels as [|channel channels IH]; intros data Hkey;
    [done|].
  rewrite fmap_cons, not_elem_of_cons in Hkey. destruct Hkey as [Hne Hkey].
  unfold channelData_after in *. cbn [foldl]. rewrite (IH _ Hkey).
  by rewrite lookup_set_property_ne.
Qed.

(** C5, amended. When the [try] block of a channel whose name is not
    [__proto__] throws, the turn of the loop still returns: under the
    channel's name it has stored an empty message list and a descriptor
    holding the channel's listed id, name, created, creator,
    is_archived, is_general, member count, purpose and topic; the loop
    goes on with the channels that remain, and those entries are in
    place when it ends unless a later channel has the same name. *)
Theorem harvest_failure_contained usersById channel st e st1 :
  harvest_try rt usersById channel st = (Thrown e, st1) →
  Conversation.name channel ≠ "__proto__" →
  ∃ st2 info,
    harvest rt usersById channel st = (Returned tt, st2) ∧
    channelMessages st2 !! Conversation.name channel = Some [] ∧
    channelData st2 !! Conversation.name channel = Some info ∧
    ChannelInfo.id info = Conversation.id channel ∧
    ChannelInfo.name info = Conversation.name channel ∧
    ChannelInfo.created info = Conversation.created channel ∧
    ChannelInfo.creator info = Conversation.creator channel ∧
    ChannelInfo.is_archived info = Conversation.is_archived channel ∧
    ChannelInfo.is_general info = Conversation.is_general channel ∧
    ChannelInfo.members info = default 0%Z (Conversation.num_members channel) ∧
    ChannelInfo.purpose info =
      default "" (n ← Conversation.purpose channel; Conversation.value n) ∧
    ChannelInfo.topic info =
      default "" (n ← Conversation.topic channel; Conversation.value n) ∧
    (∀ rest,
       for_of (channel :: rest) (harvest rt usersById) st =
       for_of rest (harvest rt usersById) st2) ∧
    (∀ rest,
       Conversation.name channel ∉ Conversation.name <$> rest →
       ∃ st3,
         for_of rest (harvest rt usersById) st2 = (Returned tt, st3) ∧
         channelMessages st3 !! Conversation.name channel = Some [] ∧
         channelData st3 !! Conversation.name channel = Some info).
Proof.
  intros E Hname.
  assert (harvest rt usersById channel st =
            harvest_catch channel e st1) as Hcatch.
  { unfold harvest, try_catch. by rewrite E. }
  unfold harvest_catch, set_channelMessages, set_channelData, mbind, M_bind
    in Hcatch. simpl in Hcatch.
  eexists _, (channelInfo channel). split; [exact Hcatch|]. simpl.
  split; [by rewrite lookup_set_property_eq|].
  split; [by rewrite lookup_set_property_eq|].
  do 6 (split; [done|]).
  split; [apply or_zero_default|].
  split; [apply or_empty_default|].
  split; [apply or_empty_default|].
  split.
  - intros rest. by apply for_of_cons.
  - intros rest Hrest.
    match goal with |- context [for_of rest _ ?s] =>
      destruct (for_of_harvest_run usersById rest s)
        as (st3 & E3 & Hd3 & _ & Hm3)
    end.
    exists st3. split; [done|]. split.
    + rewrite (Hm3 _ Hrest). simpl. by rewrite lookup_set_property_eq.
    + rewrite Hd3, (lookup_channelData_after _ _ _ Hrest). simpl.
      by rewrite lookup_set_property_eq.
Qed.

(** C8, on the failure path. When the [try] block of a channel throws,
    the turn of the loop adds nothing to the record of effects after
    the failed history call: no delay is inserted, and the next thing
    the loop does is to ask for the next channel's history. *)
Theorem harvest_failure_skips_delay usersById channel st e st1 :
  harvest_try rt usersById channel st = (Thrown e, st1) →
  ∃ st2,
    harvest rt usersById channel st = (Returned tt, st2) ∧
    trace st2 =
      trace st ++
        [EvHistory (Conversation.id channel) (thirtyDaysAgo rt (world st))] ∧
    ∀ next,
      trace st ++
        [EvHistory (Conversation.id channel) (thirtyDaysAgo rt (world st));
         EvHistory (Conversation.id next) (thirtyDaysAgo rt (world st2))]
      `prefix_of` trace (harvest rt usersById next st2).2.
Proof.
  intros E. destruct (harvest_try_thrown _ _ _ _ _ E) as [Htrace _].
  assert (harvest rt usersById channel st =
            harvest_catch channel e st1) as Hcatch.
  { unfold harvest, try_catch. by rewrite E. }
  unfold harvest_catch, set_channelMessages, set_channelData, mbind, M_bind
    in Hcatch. simpl in Hcatch.
  eexists. split; [exact Hcatch|]. simpl. split; [done|].
  intros next.
  match goal with |- context [harvest rt usersById next ?s] =>
    pose proof (harvest_asks_first usersById next s) as Hnext
  end.
  etrans; [|exact Hnext]. simpl. by rewrite Htrace, <- app_assoc.
Qed.


(** ** Author profiles *)

Lemma or_string_falling_back a b : or_string a b = falling_back a b.
Proof.
  unfold or_string, falling_back, truthy_string. destruct a as [s|]; [|done].
  case_bool_decide; by case_decide.
Qed.

Lemma falling_back_assoc a b c :
  falling_back (falling_back a b) c = falling_back a (falling_back b c).
Proof.
  unfold falling_back. destruct a as [s|].
  - case_decide as Hs; [done|]. by rewrite decide_False.
  - done.
Qed.

Lemma or_json_strings a b :
  or_json (JStr <$> a) (JStr <$> b) = JStr <$> or_string a b.
Proof.
  unfold or_json, or_string, truthy_string.
  destruct a as [s|]; simpl; [|done]. by destruct (bool_decide (s ≠ "")).
Qed.

Lemma json_string_of_string a : json_string (JStr <$> a) = a.
Proof. by destruct a. Qed.

Lemma carry_string key a o : carry key (JStr <$> a) o = o.
Proof. by destruct a. Qed.

(** A key that is neither an own entry of the index nor a property of
    any object is read as [undefined], unless the prototype of the index
    was replaced. *)
Lemma get_property_missing usersById key :
  usersById !! key = None →
  UsersById.prototype usersById = None →
  key ∉ Object_prototype_keys →
  get_property usersById key = PUndefined.
Proof.
  intros Hown Hproto Hkey. unfold get_property.
  unfold lookup, UsersById_lookup in Hown. rewrite Hown, Hproto.
  unfold inherited_from_Object, Object_prototype_keys in *.
  apply not_elem_of_cons in Hkey as [Hp Hf].
  rewrite decide_False by done.
  case_decide as Hc; [subst key; exfalso; apply Hf; by left|].
  by rewrite decide_False.
Qed.

(** C6, amended. The key a message is looked up under is its author id,
    or [undefined] when the id is unset. When that key is not an own
    entry of the user index, is not a property every object has
    ([__proto__], [constructor], [toString], ...), and no user of id
    [__proto__] has become the prototype of the index, the message is
    transformed without an exception into a record whose [user_profile]
    is [null]: no profile object is attached. *)
Theorem unknown_author_has_null_profile usersById message st :
  usersById !! default "undefined" (SlackMessage.user message) = None →
  UsersById.prototype usersById = None →
  default "undefined" (SlackMessage.user message) ∉ Object_prototype_keys →
  ∃ message' st',
    transformMessage rt usersById message st = (Returned message', st') ∧
    SlackMessage.user_profile message' = Null.
Proof.
  intros Hown Hproto Hkey.
  destruct (transformMessage_run usersById message st) as (fs & st' & E & _).
  eexists _, st'. split; [exact E|]. simpl.
  unfold user_profile_of, lookup_user.
  by rewrite (get_property_missing _ _ Hown Hproto Hkey).
Qed.

(** C7. A message whose author is in the user index is transformed into
    a record whose [user_profile] holds: as display name the author's
    profile display name, falling back to the real name, falling back
    to the handle; as real name the author's real name, falling back to
    the handle; and the author's 72-pixel avatar. For an author with
    only the handle set, the display name is the handle. *)
Theorem known_author_profile_fallbacks usersById message u author st :
  SlackMessage.user message = Some u →
  usersById !! u = Some author →
  ∃ message' st' profile,
    transformMessage rt usersById message st = (Returned message', st') ∧
    SlackMessage.user_profile message' = Value profile ∧
    UserProfile.display_name profile =
      falling_back
        (p ← SlackUser.profile_of author; SlackUser.display_name p)
        (falling_back (SlackUser.real_name author) (SlackUser.name author)) ∧
    UserProfile.real_name profile =
      falling_back (SlackUser.real_name author) (SlackUser.name author) ∧
    UserProfile.image_72 profile =
      (p ← SlackUser.profile_of author; SlackUser.image_72 p) ∧
    (SlackUser.real_name author = None →
     (p ← SlackUser.profile_of author; SlackUser.display_name p) = None →
     UserProfile.display_name profile = SlackUser.name author).
Proof.
  intros Hu Hauthor.
  destruct (transformMessage_run usersById message st) as (fs & st' & E & _).
  eexists _, st', _. split; [exact E|]. simpl.
  unfold user_profile_of, lookup_user, get_property. rewrite Hu. simpl.
  unfold lookup, UsersById_lookup in Hauthor. rewrite Hauthor.
  split; [done|]. cbn [truthy_value profile_property string_property
    UserProfile.display_name UserProfile.real_name UserProfile.image_72].
  rewrite !or_json_strings, !json_string_of_string,
    !or_string_falling_back.
  split; [by rewrite falling_back_assoc|].
  split; [done|].
  split; [done|].
  intros Hr Hd. by rewrite Hr, Hd.
Qed.

(** ** Field preservation *)

(** C9. The callback applied to a message object returns a new object:
    the object it was given, and every other object of the store, is
    unchanged. The new object has the [user], [ts], [text], [subtype],
    [reactions], [thread_ts] and all unread fields of the old one;
    its [files] is missing when the old one's is, and otherwise is a
    list of the same length whose element at each position is what
    [embed] returned for the old element at that position (that
    element, or that element with a payload); its
    [user_profile] is the one computed from the user index. *)
Theorem transformMessage_preserves_fields usersById ref message st objects :
  objects !! ref = Some message →
  ∃ ref' message' st' objects',
    transformMessage_at rt usersById ref st objects =
      (Returned ref', st', objects') ∧
    objects' !! ref' = Some message' ∧
    ref' ≠ ref ∧
    objects' !! ref = Some message ∧
    (∀ other object, objects !! other = Some object →
                     objects' !! other = Some object) ∧
    transformMessage rt usersById message st = (Returned message', st') ∧
    SlackMessage.user message' = SlackMessage.user message ∧
    SlackMessage.ts message' = SlackMessage.ts message ∧
    SlackMessage.text message' = SlackMessage.text message ∧
    SlackMessage.subtype message' = SlackMessage.subtype message ∧
    SlackMessage.reactions message' = SlackMessage.reactions message ∧
    SlackMessage.thread_ts message' = SlackMessage.thread_ts message ∧
    SlackMessage.other message' = SlackMessage.other message ∧
    SlackMessage.user_profile message' =
      user_profile_of usersById (SlackMessage.user message) ∧
    match SlackMessage.files message with
    | None => SlackMessage.files message' = None
    | Some fs =>
        ∃ fs', SlackMessage.files message' = Some fs' ∧
               length fs' = length fs ∧
               ∀ i file, fs !! i = Some file →
                 ∃ file', fs' !! i = Some file' ∧
                          embedded rt (SLACK_BOT_TOKEN rt) file file' ∧
                          (file' = file ∨
                           ∃ d, d ≠ "" ∧
                                file' = SlackFile.with_file_data file d)
    end.
Proof.
  intros Href.
  destruct (transformMessage_run usersById message st)
    as (files' & st' & E & _ & Hfiles).
  assert (∀ other object, objects !! other = Some object →
            other ≠ fresh (dom objects)) as Hfresh.
  { intros other object Hother ->.
    apply (is_fresh (dom objects)), elem_of_dom. by exists object. }
  unfold transformMessage_at. rewrite Href, E.
  eexists _, _, st', _. split; [done|].
  split; [by rewrite lookup_insert_eq|].
  split; [intros Heq; by apply (Hfresh _ _ Href)|].
  split; [rewrite lookup_insert_ne; [done|]; intros Heq;
          by apply (Hfresh _ _ Href)|].
  split.
  { intros other object Hother. rewrite lookup_insert_ne; [done|].
    intros Heq. by apply (Hfresh _ _ Hother). }
  split; [done|]. simpl. do 8 (split; [done|]).
  destruct (SlackMessage.files message) as [fs|]; [|done].
  destruct Hfiles as (fs' & -> & Hall). exists fs'. split; [done|].
  split; [symmetry; by eapply Forall2_length|].
  intros i file Hi.
  destruct (Forall2_lookup_l _ _ _ _ _ Hall Hi) as (file' & Hi' & Hrel).
  exists file'. split; [done|]. split; [done|].
  destruct Hrel as (s & s' & Es).
  destruct (embed_run (SLACK_BOT_TOKEN rt) file s)
    as (file2 & s2 & E2 & _ & Hout & _).
  rewrite Es in E2. injection E2 as <- <-.
  destruct Hout as [->|(d & Hd & -> & _)]; [by left | right; by exists d].
Qed.

(** ** The user index *)

Lemma build_usersById_snoc users user :
  build_usersById (users ++ [user]) =
    set_user (SlackUser.id user) user (build_usersById users).
Proof. unfold build_usersById. by rewrite foldl_snoc. Qed.

Lemma lookup_set_user_eq key user (usersById : UsersById.t) :
  key ≠ "__proto__" →
  set_user key user usersById !! key = Some user.
Proof.
  intros Hkey. unfold set_user, lookup, UsersById_lookup.
  rewrite decide_False by done. simpl. by rewrite lookup_insert_eq.
Qed.

Lemma lookup_set_user_ne key key' user (usersById : UsersById.t) :
  key ≠ key' →
  set_user key user usersById !! key' = usersById !! key'.
Proof.
  intros Hkey. unfold set_user, lookup, UsersById_lookup.
  repeat case_decide; simpl; by rewrite ?lookup_insert_ne.
Qed.




(** A user whose id is [__proto__] is stored under no key, as long as
    no listed user carries a field of that name. *)
Lemma build_usersById_proto users :
  Forall (λ user, SlackUser.other user !! "__proto__" = None) users →
  build_usersById users !! "__proto__" = None.
Proof.
  induction users as [|user users IH] using rev_ind; intros Hall; [done|].
  apply Forall_app in Hall as [Hall Huser].
  specialize (IH Hall). rewrite build_usersById_snoc.
  destruct (decide (SlackUser.id user = "__proto__")) as [Hid|Hid];
    [|by rewrite lookup_set_user_ne].
  rewrite Hid. change (UsersById.entries (build_usersById users)
                         !! "__proto__" = None) in IH.
  change (UsersById.entries (set_user "__proto__" user (build_usersById users))
            !! "__proto__" = None).
  unfold set_user. rewrite decide_True by done.
  assert (∀ pu, UsersById.prototype (build_usersById users) = Some pu →
                SlackUser.other pu !! "__proto__" = None) as Hproto.
  { clear IH Huser Hid user. induction users as [|user users IH] using rev_ind;
      [done|]. apply Forall_app in Hall as [Hall Huser].
    apply Forall_inv in Huser.
    rewrite build_usersById_snoc. unfold set_user.
    repeat case_decide; simpl; intros pu Hpu; try by apply IH.
    by injection Hpu as <-. }
  rewrite decide_False; [done|].
  intros [Hown|Hinherited].
  - rewrite IH in Hown. by destruct Hown.
  - destruct (UsersById.prototype (build_usersById users)) as [pu|] eqn:Hpu;
      simpl in Hinherited; [|by destruct Hinherited].
    rewrite (Hproto pu eq_refl) in Hinherited. by destruct Hinherited.
Qed.


End Properties.

(** * The statements at work on the small workspace *)

Lemma embed_ineligible_identity_witness :
  embed (demo_runtime [] []) "xoxb-demo" demo_pdf demo_start =
    (Returned demo_pdf, demo_start).
Proof.
  apply (embed_ineligible_identity (demo_runtime [] []) "xoxb-demo" demo_pdf
           demo_start).
  right; right; right. rewrite !not_elem_of_cons.
  repeat split; try done. apply not_elem_of_nil.
Defined.

(** C3 as stated fails: a descriptor that already carries a payload
    comes back with that payload replaced, so an existing field was
    altered. *)
Lemma embed_alters_existing_payload :
  ∃ file' st',
    embed (demo_runtime [] []) "xoxb-demo" demo_embedded_png demo_start =
      (Returned file', st') ∧
    ¬ input_or_input_plus_payload demo_embedded_png file'.
Proof.
  eexists _, _. split; [vm_compute; reflexivity|].
  intros [Heq|[(_ & _ & _ & _ & Hdata & _) _]].
  - apply (f_equal SlackFile.file_data) in Heq. discriminate Heq.
  - specialize (Hdata "T0xE" eq_refl). discriminate Hdata.
Qed.

Lemma export_entries_distinct_names_witness :
  ∃ snapshot st',
    exportData (demo_runtime [demo_general; demo_secret_ops] [demo_bob])
      demo_start = (Returned snapshot, st') ∧
    size (ExportData.channels snapshot) = 2 ∧
    size (ExportData.messages snapshot) = 2 ∧
    ExportData.totalChannels snapshot = size (ExportData.channels snapshot).
Proof.
  apply (export_entries_distinct_names
           (demo_runtime [demo_general; demo_secret_ops] [demo_bob])
           demo_start tt tt tt
           (Some [demo_general; demo_secret_ops]) (Some [demo_bob]));
    [reflexivity | reflexivity | reflexivity | |];
    apply (bool_decide_unpack _); by vm_compute.
Defined.

(** C1 as stated fails: two listed channels with one name leave one
    entry in the channel mapping, while [totalChannels] is two. (So
    does a single listed channel named [__proto__], which leaves
    none: [export_proto_channel_has_no_entry].) *)
Lemma export_entries_name_collision :
  ∃ snapshot st',
    exportData (demo_runtime [demo_general; demo_general_archived] [demo_bob])
      demo_start = (Returned snapshot, st') ∧
    length [demo_general; demo_general_archived] = 2 ∧
    size (ExportData.channels snapshot) ≠ 2 ∧
    ExportData.totalChannels snapshot ≠ size (ExportData.channels snapshot).
Proof.
  eexists _, _. split; [vm_compute; reflexivity|].
  split; [done|]. split; by vm_compute.
Qed.

Lemma export_totalMessages_is_sum_witness :
  ∃ snapshot st',
    exportData (demo_runtime [demo_general; demo_secret_ops] [demo_bob])
      demo_start = (Returned snapshot, st') ∧
    ExportData.totalMessages snapshot = 5 ∧
    ExportData.totalMessages snapshot =
      sum_of_bundle_lengths (ExportData.messages snapshot).
Proof.
  eexists _, _. split; [vm_compute; reflexivity|]. split; [done|].
  eapply (export_totalMessages_is_sum
            (demo_runtime [demo_general; demo_secret_ops] [demo_bob])
            demo_start).
  vm_compute. reflexivity.
Defined.

Lemma harvest_failure_contained_witness :
  ∃ st2 info,
    harvest (demo_runtime [] []) ∅ demo_secret_ops demo_start =
      (Returned tt, st2) ∧
    channelMessages st2 !! "secret-ops" = Some [] ∧
    channelData st2 !! "secret-ops" = Some info ∧
    ChannelInfo.id info = "C2" ∧
    ChannelInfo.members info = 3%Z ∧
    ChannelInfo.purpose info = "day to day" ∧
    ChannelInfo.topic info = "".
Proof.
  edestruct (harvest_failure_contained (demo_runtime [] []) ∅ demo_secret_ops
               demo_start)
    as (st2 & info & Hrun & Hmsgs & Hdata & Hid & _ & _ & _ & _ & _ &
        Hmembers & Hpurpose & Htopic & _);
    [vm_compute; reflexivity | done |].
  exists st2, info. repeat split; assumption.
Defined.

(** C5 as stated fails: a channel named [__proto__] whose history is
    refused is skipped without an exception, but no entry is recorded
    for it, neither a descriptor nor an empty message list. *)
Lemma harvest_failure_leaves_no_entry :
  ∃ e st1 st2,
    harvest_try (demo_runtime [] []) ∅ demo_proto_channel demo_start =
      (Thrown e, st1) ∧
    harvest (demo_runtime [] []) ∅ demo_proto_channel demo_start =
      (Returned tt, st2) ∧
    channelMessages st2 !! Conversation.name demo_proto_channel = None ∧
    channelData st2 !! Conversation.name demo_proto_channel = None ∧
    channelMessages st2 = ∅ ∧
    channelData st2 = ∅.
Proof.
  eexists _, _, _. split; [vm_compute; reflexivity|].
  split; [vm_compute; reflexivity|]. by vm_compute.
Qed.

(** The same in a whole run: the listing returns one channel, named
    [__proto__], and the snapshot has no entry while [totalChannels]
    is one. *)
Example export_proto_channel_has_no_entry :
  ∃ snapshot st',
    exportData (demo_runtime [demo_proto_channel] [demo_bob]) demo_start =
      (Returned snapshot, st') ∧
    ExportData.channels snapshot = ∅ ∧
    ExportData.messages snapshot = ∅ ∧
    ExportData.totalChannels snapshot = 1.
Proof.
  eexists _, _. split; [vm_compute; reflexivity|]. by vm_compute.
Qed.

Lemma unknown_author_has_null_profile_witness :
  ∃ message' st',
    transformMessage (demo_runtime [] []) (build_usersById [demo_bob])
      demo_notice demo_start = (Returned message', st') ∧
    SlackMessage.user_profile message' = Null.
Proof.
  apply (unknown_author_has_null_profile (demo_runtime [] [])
           (build_usersById [demo_bob]) demo_notice demo_start);
    [reflexivity | reflexivity |].
  apply (bool_decide_unpack _). by vm_compute.
Defined.

(** C6 as stated fails: [constructor] is the id of no user, yet a
    message whose author id is [constructor] gets a profile object, with
    the name of the function every object has under that key. *)
Lemma unknown_author_gets_profile_object :
  build_usersById [demo_bob] !! "constructor" = None ∧
  SlackMessage.user demo_constructor_message = Some "constructor" ∧
  ∃ message' st',
    transformMessage (demo_runtime [] []) (build_usersById [demo_bob])
      demo_constructor_message demo_start = (Returned message', st') ∧
    SlackMessage.user_profile message' =
      Value {| UserProfile.display_name := Some "Object";
               UserProfile.real_name := Some "Object";
               UserProfile.image_72 := None;
               UserProfile.other := ∅ |} ∧
    SlackMessage.user_profile message' ≠ Null.
Proof.
  split; [reflexivity|]. split; [reflexivity|].
  eexists _, _. split; [vm_compute; reflexivity|].
  split; [vm_compute; reflexivity | by vm_compute].
Qed.

Lemma known_author_profile_fallbacks_witness :
  ∃ message' st' profile,
    transformMessage (demo_runtime [] []) (build_usersById [demo_bob])
      demo_message demo_start = (Returned message', st') ∧
    SlackMessage.user_profile message' = Value profile ∧
    UserProfile.display_name profile = Some "bob" ∧
    UserProfile.real_name profile = Some "bob" ∧
    UserProfile.image_72 profile = None.
Proof.
  destruct (known_author_profile_fallbacks (demo_runtime [] [])
              (build_usersById [demo_bob]) demo_message "U1" demo_bob
              demo_start eq_refl eq_refl)
    as (message' & st' & profile & Hrun & Hprofile & Hdisplay & Hreal &
        Himage & _).
  exists message', st', profile. repeat split; assumption.
Defined.

Lemma harvest_failure_skips_delay_witness :
  ∃ st2,
    harvest (demo_runtime [] []) ∅ demo_secret_ops demo_start =
      (Returned tt, st2) ∧
    trace st2 = [EvHistory "C2" 1697408000].
Proof.
  edestruct (harvest_failure_skips_delay (demo_runtime [] []) ∅
               demo_secret_ops demo_start)
    as (st2 & Hrun & Htrace & _);
    [vm_compute; reflexivity|].
  exists st2. split; assumption.
Defined.

Lemma transformMessage_preserves_fields_witness :
  ∃ ref' message' st' objects',
    transformMessage_at (demo_runtime [] []) (build_usersById [demo_bob])
      1%positive demo_start {[ 1%positive := demo_message ]} =
      (Returned ref', st', objects') ∧
    objects' !! ref' = Some message' ∧
    objects' !! 1%positive = Some demo_message ∧
    SlackMessage.ts message' = "1700000000.000100" ∧
    SlackMessage.text message' = "plan attached".
Proof.
  destruct (transformMessage_preserves_fields (demo_runtime [] [])
              (build_usersById [demo_bob]) 1%positive demo_message demo_start
              {[ 1%positive := demo_message ]}
              (lookup_singleton_eq 1%positive demo_message))
    as (ref' & message' & st' & objects' & Hrun & Hnew & _ & Hold & _ & _ &
        _ & Hts & Htext & _).
  exists ref', message', st', objects'. repeat split; assumption.
Defined.



(** The scenario of the specification: [general] has five messages, one
    with a 2 MB PNG attached, and the history of [secret-ops] is
    refused. *)
Example scenario_general_and_secret_ops :
  ∃ snapshot st' first others,
    exportData (demo_runtime [demo_general; demo_secret_ops] [demo_bob])
      demo_start = (Returned snapshot, st') ∧
    ExportData.totalChannels snapshot = 2 ∧
    ExportData.totalUsers snapshot = 1 ∧
    ExportData.totalMessages snapshot = 5 ∧
    ExportData.messages snapshot !! "general" = Some (first :: others) ∧
    length others = 4 ∧
    SlackFile.file_data <$> default [] (SlackMessage.files first) =
      [Some "TkVX"; None] ∧
    ExportData.messages snapshot !! "secret-ops" = Some [] ∧
    ExportData.channels snapshot !! "secret-ops" =
      Some (channelInfo demo_secret_ops) ∧
    trace st' =
      [EvAuthTest; EvConversationsList; EvUsersList;
       EvHistory "C1" 1697408000;
       EvFetch "https://files.slack.com/T1/F1/plan.png";
       EvSleep 100;
       EvHistory "C2" 1697408000].
Proof.
  eexists _, _, _, _. split; [vm_compute; reflexivity|].
  do 3 (split; [by vm_compute|]). split; [vm_compute; reflexivity|].
  repeat split; by vm_compute.
Qed.

(** The same workspace listed the other way round: nothing separates
    the refused history call from the next one. *)
Example scenario_refused_channel_first :
  ∃ snapshot st',
    exportData (demo_runtime [demo_secret_ops; demo_general] [demo_bob])
      demo_start = (Returned snapshot, st') ∧
    trace st' =
      [EvAuthTest; EvConversationsList; EvUsersList;
       EvHistory "C2" 1697408000;
       EvHistory "C1" 1697408000;
       EvFetch "https://files.slack.com/T1/F1/plan.png";
       EvSleep 100].
Proof.
  eexists _, _. split; [vm_compute; reflexivity|]. by vm_compute.
Qed.

(** * Further properties of the handler *)

Section Coverage.
Context {World : Type} (rt : Runtime World) (access : Access).

(** ** Which requests the export makes *)

Lemma eligible_url_None file :
  SlackFile.url_private file = None → eligible_url file = None.
Proof.
  intros H. unfold eligible_url, shouldEmbed. by rewrite H.
Qed.

Lemma embed_trace token file st :
  trace (embed rt token file st).2 = trace st ++ fetches_of_files [file].
Proof.
  unfold fetches_of_files, embed. simpl.
  destruct (SlackFile.url_private file) as [url|] eqn:Hurl.
  - unfold eligible_url. destruct (shouldEmbed file); rewrite ?Hurl; simpl;
      [|by rewrite app_nil_r].
    destruct (downloadFileAsBase64_run rt url token st) as (r & w & E & _).
    unfold mbind, M_bind. rewrite E.
    by destruct (truthy_string r).
  - rewrite (eligible_url_None _ Hurl). simpl. by rewrite app_nil_r.
Qed.

(** The effects of a mapped list of computations are those of its
    elements, in order. *)
Lemma promise_all_map_trace {A B} (f : A → M World B) (g : A → list event) l :
  (∀ x, returns (f x)) →
  (∀ x st, trace (f x st).2 = trace st ++ g x) →
  ∀ st, trace (promise_all_map f l st).2 = trace st ++ concat (g <$> l).
Proof.
  intros Hret Hg. induction l as [|x l IH]; intros st; simpl.
  - by rewrite app_nil_r.
  - destruct (Hret x st) as (y & st1 & E1). specialize (Hg x st).
    rewrite E1 in Hg. simpl in Hg.
    destruct (returns_promise_all_map f l Hret st1) as (ys & st2 & E2).
    specialize (IH st1). rewrite E2 in IH. simpl in IH.
    unfold mbind, M_bind. rewrite E1, E2. simpl.
    by rewrite IH, Hg, app_assoc.
Qed.

Lemma fetches_of_files_concat files :
  concat ((λ file, fetches_of_files [file]) <$> files) = fetches_of_files files.
Proof.
  induction files as [|file files IH]; [done|].
  rewrite fmap_cons. cbn [concat]. rewrite IH.
  unfold fetches_of_files. simpl. by destruct (eligible_url file).
Qed.

Lemma processMessageFiles_trace files token st :
  trace (processMessageFiles rt files token st).2 =
    trace st ++ fetches_of_files (default [] files).
Proof.
  unfold processMessageFiles. destruct files as [[|f fs]|].
  - simpl. by rewrite app_nil_r.
  - pose proof (promise_all_map_trace (embed rt token)
                  (λ file, fetches_of_files [file]) (f :: fs)
                  (returns_embed rt token) (embed_trace token) st) as Htr.
    rewrite fetches_of_files_concat in Htr. unfold mbind, M_bind.
    by destruct (promise_all_map (embed rt token) (f :: fs) st)
      as [[ys|e] st1].
  - simpl. by rewrite app_nil_r.
Qed.

(** X1. [processMessageFiles] always returns, and the downloads it
    makes are exactly those of the files that pass the eligibility
    test, one each, in the order of the list. *)
Theorem processMessageFiles_downloads_eligible_once files token st :
  ∃ files' st',
    processMessageFiles rt files token st = (Returned files', st') ∧
    trace st' = trace st ++ fetches_of_files (default [] files) ∧
    length (default [] files') = length (default [] files).
Proof.
  destruct (processMessageFiles_run rt files token st)
    as (files' & st' & E & _ & Hrel).
  exists files', st'. split; [done|]. split.
  - pose proof (processMessageFiles_trace files token st) as Htr.
    by rewrite E in Htr.
  - destruct files as [fs|]; [|by rewrite Hrel].
    destruct Hrel as (fs' & -> & Hall). simpl. symmetry.
    by eapply Forall2_length.
Qed.

Lemma transformMessage_trace usersById message st :
  trace (transformMessage rt usersById message st).2 =
    trace st ++ fetches_of_message message.
Proof.
  unfold transformMessage, fetches_of_message.
  destruct (SlackMessage.files message) as [fs|].
  - pose proof (processMessageFiles_trace (Some fs) (SLACK_BOT_TOKEN rt) st)
      as Htr.
    unfold mbind, M_bind.
    by destruct (processMessageFiles rt (Some fs) (SLACK_BOT_TOKEN rt) st)
      as [[files'|e] st'].
  - simpl. by rewrite app_nil_r.
Qed.


Lemma history_trace usersById messages st :
  trace (promise_all_map (transformMessage rt usersById) messages st).2 =
    trace st ++ fetches_of_history messages.
Proof.
  apply (promise_all_map_trace (transformMessage rt usersById)
           fetches_of_message messages
           (returns_transformMessage rt usersById)
           (transformMessage_trace usersById)).
Qed.

Lemma harvest_trace usersById channel st :
  let oldest := thirtyDaysAgo rt (world st) in
  trace (harvest rt usersById channel st).2 =
    trace st ++
    EvHistory (Conversation.id channel) oldest ::
    match conversations_history rt (Conversation.id channel) oldest (world st)
    with
    | (Returned historyResponse, _) =>
        fetches_of_history (default [] historyResponse) ++ [EvSleep 100]
    | (Thrown _, _) => []
    end.
Proof.
  intros oldest.
  pose proof (harvest_try_run rt usersById channel st) as H. simpl in H.
  fold oldest in H. unfold harvest, try_catch.
  destruct (conversations_history rt _ _ _) as [[historyResponse|e] w].
  - destruct H as (tms & st2 & E & ->). simpl.
    match type of E with _ _ _ ?s = _ =>
      pose proof (history_trace usersById (default [] historyResponse) s)
        as Htr
    end.
    rewrite E in Htr. simpl in Htr. rewrite Htr.
    by rewrite <- !app_assoc.
  - by rewrite H.
Qed.

Lemma history_requests_app tr1 tr2 :
  history_requests (tr1 ++ tr2) = history_requests tr1 ++ history_requests tr2.
Proof. apply omap_app. Qed.

Lemma history_requests_fetches messages :
  history_requests (fetches_of_history messages) = [].
Proof.
  unfold fetches_of_history.
  induction messages as [|m messages IH]; [done|].
  rewrite fmap_cons. cbn [concat]. rewrite history_requests_app, IH.
  unfold fetches_of_message, fetches_of_files.
  by induction (omap eligible_url (default [] (SlackMessage.files m))).
Qed.

(** X2. A turn of the loop whose history call returns makes that one
    request, then exactly the downloads of the eligible files of the
    returned messages, in order, then one delay of 100 ms. *)
Theorem harvest_success_effects usersById channel st historyResponse w :
  conversations_history rt (Conversation.id channel)
    (thirtyDaysAgo rt (world st)) (world st) = (Returned historyResponse, w) →
  ∃ st',
    harvest rt usersById channel st = (Returned tt, st') ∧
    trace st' =
      trace st ++
      [EvHistory (Conversation.id channel) (thirtyDaysAgo rt (world st))] ++
      fetches_of_history (default [] historyResponse) ++ [EvSleep 100].
Proof.
  intros Hh. destruct (harvest_run rt usersById channel st)
    as (msgs & st' & E & _).
  exists st'. split; [done|].
  pose proof (harvest_trace usersById channel st) as Htr. simpl in Htr.
  by rewrite E, Hh in Htr.
Qed.

(** X3. Every turn of the loop makes exactly one history request, first
    of all, for the id of its channel and with a cutoff that is thirty
    days before the clock's time, rounded down to a whole second. *)
Theorem harvest_one_history_request usersById channel st :
  ∃ st' after,
    harvest rt usersById channel st = (Returned tt, st') ∧
    trace st' =
      trace st ++
      EvHistory (Conversation.id channel) (thirtyDaysAgo rt (world st)) ::
      after ∧
    history_requests after = [] ∧
    (1000 * thirtyDaysAgo rt (world st)
       ≤ date_now rt (world st) - 2592000000
       < 1000 * thirtyDaysAgo rt (world st) + 1000)%Z.
Proof.
  destruct (harvest_run rt usersById channel st) as (msgs & st' & E & _).
  pose proof (harvest_trace usersById channel st) as Htr. simpl in Htr.
  rewrite E in Htr. simpl in Htr.
  eexists st', _. split; [done|]. split; [exact Htr|]. split.
  - destruct (conversations_history rt _ _ _) as [[historyResponse|e] w];
      [|done].
    by rewrite history_requests_app, history_requests_fetches.
  - unfold thirtyDaysAgo.
    pose proof (Z.div_mod (date_now rt (world st) - 30 * 24 * 60 * 60 * 1000)
                  1000 ltac:(done)) as Hdiv.
    pose proof (Z.mod_pos_bound
                  (date_now rt (world st) - 30 * 24 * 60 * 60 * 1000)
                  1000 ltac:(done)) as Hmod.
    lia.
Qed.

Lemma for_of_harvest_requests usersById channels st :
  history_requests (trace (for_of channels (harvest rt usersById) st).2) =
    history_requests (trace st) ++ (Conversation.id <$> channels).
Proof.
  revert st. induction channels as [|channel channels IH]; intros st.
  - simpl. by rewrite app_nil_r.
  - destruct (harvest_run rt usersById channel st) as (msgs & st1 & E & _).
    rewrite (for_of_cons _ _ _ _ _ E), IH.
    pose proof (harvest_trace usersById channel st) as Htr. simpl in Htr.
    rewrite E in Htr. simpl in Htr. rewrite Htr.
    rewrite history_requests_app. simpl.
    destruct (conversations_history rt _ _ _) as [[historyResponse|e] w].
    + rewrite history_requests_app, history_requests_fetches. simpl.
      by rewrite <- app_assoc.
    + simpl. by rewrite <- app_assoc.
Qed.

Lemma export_listed_requests channels users st :
  history_requests (trace (export_listed rt channels users st).2) =
    history_requests (trace st) ++ (Conversation.id <$> channels).
Proof.
  pose proof (for_of_harvest_requests (build_usersById users) channels
                {| world := world st; trace := trace st;
                   channelMessages := ∅; channelData := ∅ |}) as Hreq.
  unfold export_listed, new_dictionaries, get_state, mbind, M_bind, mret, M_ret.
  by destruct (for_of channels _ _) as [[[]|e] st'].
Qed.

(** X4. The export asks for the history of every listed channel exactly
    once, by its id, in the order of the listing, whether or not earlier
    channels failed. *)
Theorem export_requests_follow_listing channels users st :
  ∃ snapshot st',
    export_listed rt channels users st = (Returned snapshot, st') ∧
    history_requests (trace st') =
      history_requests (trace st) ++ (Conversation.id <$> channels).
Proof.
  destruct (export_listed_run rt channels users st) as (st' & E & _).
  eexists _, st'. split; [exact E|].
  pose proof (export_listed_requests channels users st) as Hreq.
  by rewrite E in Hreq.
Qed.

(** ** The bundle of a channel *)

(** X5. When the history call of a channel whose name is not
    [__proto__] returns, the bundle stored under the channel's name has
    one record per returned message, in the order returned: each is its
    message with [files] and [user_profile] replaced, so the timestamps
    of the bundle are those of the history, in order. *)
Theorem harvest_keeps_history_order usersById channel st historyResponse w :
  conversations_history rt (Conversation.id channel)
    (thirtyDaysAgo rt (world st)) (world st) = (Returned historyResponse, w) →
  Conversation.name channel ≠ "__proto__" →
  ∃ st' bundle,
    harvest rt usersById channel st = (Returned tt, st') ∧
    channelMessages st' !! Conversation.name channel = Some bundle ∧
    Forall2
      (λ message record,
         ∃ files', record =
           SlackMessage.with_files_profile message files'
             (user_profile_of usersById (SlackMessage.user message)))
      (default [] historyResponse) bundle ∧
    SlackMessage.ts <$> bundle =
      SlackMessage.ts <$> default [] historyResponse.
Proof.
  intros Hh Hname.
  pose proof (harvest_try_run rt usersById channel st) as H. simpl in H.
  rewrite Hh in H. destruct H as (tms & st2 & E & Htry).
  unfold harvest, try_catch. rewrite Htry.
  eexists _, tms. split; [done|]. simpl.
  split; [by rewrite lookup_set_property_eq|].
  assert (Forall2
            (λ message record,
               ∃ files', record =
                 SlackMessage.with_files_profile message files'
                   (user_profile_of usersById (SlackMessage.user message)))
            (default [] historyResponse) tms) as Hall.
  { eapply Forall2_impl; [by eapply promise_all_map_Forall2|].
    intros message record (s & s' & Es).
    destruct (transformMessage_run rt usersById message s)
      as (files' & s2 & E2 & _).
    rewrite Es in E2. injection E2 as -> _. by exists files'. }
  split; [done|].
  clear -Hall. induction Hall as [|message record ? ? [files' ->] _ IH];
    [done|].
  rewrite !fmap_cons, IH. done.
Qed.



(** ** The two mappings of the snapshot *)

(** X7. In the user index, every key is the id of the record it holds
    and that record is one of the listed users; every listed user whose
    id is not [__proto__] has its id as a key; and the prototype of the
    index, when it was replaced, is a listed user whose id is
    [__proto__]. *)
Theorem usersById_keys_are_ids users :
  (∀ key user, build_usersById users !! key = Some user →
               SlackUser.id user = key ∧ user ∈ users) ∧
  (∀ user, user ∈ users → SlackUser.id user ≠ "__proto__" →
           is_Some (build_usersById users !! SlackUser.id user)) ∧
  (∀ user, UsersById.prototype (build_usersById users) = Some user →
           SlackUser.id user = "__proto__" ∧ user ∈ users).
Proof.
  induction users as [|last users (IH1 & IH2 & IH3)] using rev_ind.
  - split; [done|]. split; [|done].
    intros user Hin. by apply elem_of_nil in Hin.
  - rewrite build_usersById_snoc. split; [|split].
    + intros key user Hlookup.
      destruct (decide (SlackUser.id last = key)) as [<-|Hne].
      * assert (user = last) as ->.
        { revert Hlookup. unfold set_user, lookup, UsersById_lookup.
          repeat case_decide; simpl.
          - rewrite lookup_insert_eq. by intros [= <-].
          - intros Hlookup. exfalso. by eauto.
          - rewrite lookup_insert_eq. by intros [= <-]. }
        split; [done|]. apply elem_of_app. right.
        by apply list_elem_of_singleton.
      * rewrite lookup_set_user_ne in Hlookup by done.
        destruct (IH1 _ _ Hlookup) as [Hid Hin]. split; [done|].
        apply elem_of_app. by left.
    + intros user Hin Hid. apply elem_of_app in Hin as [Hin|Hin].
      * destruct (decide (SlackUser.id last = SlackUser.id user)) as [Heq|Hne].
        -- rewrite Heq, lookup_set_user_eq by done. by eexists.
        -- rewrite lookup_set_user_ne by done. by apply IH2.
      * apply list_elem_of_singleton in Hin as ->.
        rewrite lookup_set_user_eq by done. by eexists.
    + intros user. unfold set_user. repeat case_decide; simpl.
      * intros Hp. destruct (IH3 _ Hp) as [Hid Hin]. split; [done|].
        apply elem_of_app. by left.
      * intros [= <-]. split; [done|]. apply elem_of_app. right.
        by apply list_elem_of_singleton.
      * intros Hp. destruct (IH3 _ Hp) as [Hid Hin]. split; [done|].
        apply elem_of_app. by left.
Qed.

Lemma channelData_after_snoc channels channel (data : gmap string ChannelInfo.t) :
  channelData_after (channels ++ [channel]) data =
    set_property (Conversation.name channel) (channelInfo channel)
      (channelData_after channels data).
Proof. unfold channelData_after. by rewrite foldl_snoc. Qed.

Lemma channelData_after_last channels (data : gmap string ChannelInfo.t) j
    channel :
  last_named channels j channel →
  Conversation.name channel ≠ "__proto__" →
  channelData_after channels data !! Conversation.name channel =
    Some (channelInfo channel).
Proof.
  revert j channel. induction channels as [|c channels IH] using rev_ind;
    intros j channel [Hj Hlast] Hname; [done|].
  rewrite channelData_after_snoc.
  destruct (decide (j = length channels)) as [->|Hne].
  - rewrite list_lookup_middle in Hj by done. injection Hj as ->.
    by rewrite lookup_set_property_eq.
  - assert (j < length channels) as Hlt.
    { apply lookup_lt_Some in Hj. rewrite length_app in Hj. simpl in Hj. lia. }
    rewrite lookup_app_l in Hj by done.
    rewrite lookup_set_property_ne.
    + apply (IH j); [|done]. split; [done|]. intros k later Hk Hk'.
      apply (Hlast k); [done|]. rewrite lookup_app_l; [done|].
      by eapply lookup_lt_Some.
    + apply (Hlast (length channels)); [done|].
      by rewrite list_lookup_middle.
Qed.

(** X8. When listed channels share a name other than [__proto__], the
    descriptor the snapshot keeps under that name is the one of the
    channel listed last. *)
Theorem export_keeps_last_descriptor channels users st j channel :
  last_named channels j channel →
  Conversation.name channel ≠ "__proto__" →
  ∃ snapshot st',
    export_listed rt channels users st = (Returned snapshot, st') ∧
    ExportData.channels snapshot !! Conversation.name channel =
      Some (channelInfo channel) ∧
    ChannelInfo.id <$> ExportData.channels snapshot !! Conversation.name channel
      = Some (Conversation.id channel).
Proof.
  intros Hlast Hname. destruct (export_listed_run rt channels users st)
    as (st' & E & _).
  eexists _, st'. split; [exact E|]. simpl.
  by rewrite (channelData_after_last _ _ _ _ Hlast Hname).
Qed.

(** X9. Every listed channel whose name is not [__proto__] has an
    entry under its name in the channel mapping and in the message
    mapping, also when its harvest failed or its name is shared; the two
    mappings have the same keys, the listed names other than
    [__proto__]. *)
Theorem export_every_channel_has_entries channels users st :
  ∃ snapshot st',
    export_listed rt channels users st = (Returned snapshot, st') ∧
    dom (ExportData.channels snapshot) = dom (ExportData.messages snapshot) ∧
    (∀ key, key ∈ dom (ExportData.channels snapshot) ↔
            key ∈ Conversation.name <$> channels ∧ key ≠ "__proto__") ∧
    ∀ channel, channel ∈ channels →
      Conversation.name channel ≠ "__proto__" →
      is_Some (ExportData.channels snapshot !! Conversation.name channel) ∧
      is_Some (ExportData.messages snapshot !! Conversation.name channel).
Proof.
  destruct (export_listed_run rt channels users st) as (st' & E & Hdom).
  eexists _, st'. split; [exact E|]. simpl.
  assert (dom (channelData_after channels ∅) =
            list_to_set (entry_names channels)) as Hnames
    by (by rewrite dom_channelData_after, dom_empty_L, (left_id_L ∅ (∪))).
  assert (∀ key, key ∈ list_to_set (C := gset string) (entry_names channels) ↔
                 key ∈ Conversation.name <$> channels ∧ key ≠ "__proto__")
    as Hkeys.
  { intros key. unfold entry_names.
    rewrite elem_of_list_to_set, list_elem_of_filter. tauto. }
  split; [by rewrite Hnames, Hdom|]. split.
  - intros key. by rewrite Hnames.
  - intros channel Hin Hname.
    assert (Conversation.name channel ∈
              list_to_set (C := gset string) (entry_names channels))
      as Hkey by (apply Hkeys; split; [by apply list_elem_of_fmap_2 | done]).
    split; apply elem_of_dom; [by rewrite Hnames | by rewrite Hdom].
Qed.

(** ** Downloads *)

(** X11. For a file that passes the eligibility test, when the request
    succeeds and the body encodes to a non-empty string, [embed] makes
    that one request and returns the file with the encoded body as
    [file_data] and its own mimetype as [file_data_mimetype]. *)
Theorem embed_attaches_download token file st url resp w bs :
  shouldEmbed file = true →
  SlackFile.url_private file = Some url →
  fetch rt url token (world st) = (Returned resp, w) →
  ok resp = true →
  arrayBuffer resp = Bytes bs →
  base64 rt bs ≠ "" →
  embed rt token file st =
    (Returned (SlackFile.with_file_data file (base64 rt bs)),
     {| world := w;
        trace := trace st ++ [EvFetch url];
        channelMessages := channelMessages st;
        channelData := channelData st |}).
Proof.
  intros Hs Hurl Hfetch Hok Hbody Hdata.
  unfold embed, downloadFileAsBase64, try_catch, mbind, M_bind, call.
  rewrite Hurl, Hs, Hfetch. simpl. rewrite Hok. simpl. rewrite Hbody. simpl.
  by rewrite bool_decide_eq_true_2.
Qed.

(** X12. A download that succeeds with a body whose encoding is the
    empty string (a file of no bytes) attaches nothing: the request was
    made, and the file comes back as it was. *)
Theorem embed_ignores_empty_download token file st url resp w bs :
  shouldEmbed file = true →
  SlackFile.url_private file = Some url →
  fetch rt url token (world st) = (Returned resp, w) →
  ok resp = true →
  arrayBuffer resp = Bytes bs →
  base64 rt bs = "" →
  embed rt token file st =
    (Returned file,
     {| world := w;
        trace := trace st ++ [EvFetch url];
        channelMessages := channelMessages st;
        channelData := channelData st |}).
Proof.
  intros Hs Hurl Hfetch Hok Hbody Hdata.
  unfold embed, downloadFileAsBase64, try_catch, mbind, M_bind, call.
  rewrite Hurl, Hs, Hfetch. simpl. rewrite Hok. simpl. rewrite Hbody. simpl.
  by rewrite Hdata.
Qed.


(** ** The request handler *)

Lemma answer_error_is_error e :
  ¬ carries_data (answer_error e) ∧
  (statusCode (answer_error e) = 401 ∨ statusCode (answer_error e) = 403 ∨
   statusCode (answer_error e) = 429 ∨ statusCode (answer_error e) = 500)%Z.
Proof.
  unfold answer_error, carries_data. repeat case_decide; simpl;
    (split; [by intros (? & ? & ?)|]); tauto.
Qed.

(** An export that throws has asked for no channel history. *)
Lemma exportData_thrown st e st' :
  exportData rt st = (Thrown e, st') →
  listing_fails rt (world st) e ∧
  history_requests (trace st') = history_requests (trace st).
Proof.
  unfold exportData, listing_fails, mbind, M_bind, call. simpl.
  destruct (auth_test rt (world st)) as [[[]|e1] w1] eqn:Ha; simpl.
  - destruct (conversations_list rt w1) as [[channelsResponse|e2] w2] eqn:Hc;
      simpl.
    + destruct (users_list rt w2) as [[usersResponse|e3] w3] eqn:Hu; simpl.
      * intros E.
        match type of E with export_listed _ ?c ?u ?s = _ =>
          destruct (export_listed_run rt c u s) as (st2 & E2 & _)
        end.
        rewrite E2 in E. discriminate.
      * intros [= -> <-]. simpl. split; [by right; right; eauto 10|].
        by rewrite !history_requests_app, !app_nil_r.
    + intros [= -> <-]. simpl. split; [by right; left; eauto|].
      by rewrite !history_requests_app, !app_nil_r.
  - intros [= -> <-]. simpl. split; [by left; eauto|].
    by rewrite !history_requests_app, !app_nil_r.
Qed.

(** X13. A request that does not pass the checks (not a POST, no
    passkey, a passkey that is not a string, or one that does not hash
    to the admin hash) is answered without any call to Slack and without
    data: with 405 when it is not a POST; with 500 when it has no body,
    or when its passkey is truthy and not a string, which the digest
    refuses; with 401 otherwise. The machine state is untouched. *)
Theorem handler_refuses_unauthorized req st :
  ¬ authorized access req →
  ∃ r,
    handler rt access req st = (Returned r, st) ∧
    ¬ carries_data r ∧
    statusCode r =
      (if decide (method req = "POST")
       then match body_of req with
            | NoBody | NullBody => 500
            | Body None | Body (Some (JStr _)) => 401
            | Body (Some data) => if truthy_json data then 500 else 401
            end
       else 405)%Z.
Proof.
  intros Hno. unfold handler, carries_data.
  case_bool_decide as Hmethod.
  - eexists. split; [done|]. rewrite decide_False by done.
    split; [by intros (? & ? & ?) | done].
  - rewrite decide_True by done.
    unfold try_catch, throw.
    destruct (body_of req) as [| |[data|]] eqn:Hbody; simpl;
      try (eexists; split; [done|]; split; [by intros (? & ? & ?) | done]).
    destruct data as [|b|n|p|l|l]; simpl;
      try (eexists; split; [done|]; split; [by intros (? & ? & ?) | done]).
    + destruct b; simpl;
        eexists; (split; [done|]); (split; [by intros (? & ? & ?) | done]).
    + case_bool_decide as Hn; simpl;
        eexists; (split; [done|]); (split; [by intros (? & ? & ?) | done]).
    + case_bool_decide as Hp; simpl;
        [|eexists; split; [done|]; split; [by intros (? & ? & ?) | done]].
      case_bool_decide as Hhash; simpl.
      * eexists. split; [done|]. split; [by intros (? & ? & ?) | done].
      * destruct Hno. split; [done|]. by exists p.
Qed.

(** X14. The handler answers every request: it never throws, its
    status is one of 200, 401, 403, 405, 429 and 500, and the answer
    carries a snapshot exactly when the status is 200. *)
Theorem handler_always_answers req st :
  ∃ r st',
    handler rt access req st = (Returned r, st') ∧
    statusCode r ∈ [200; 401; 403; 405; 429; 500]%Z ∧
    (statusCode r = 200%Z ↔ carries_data r).
Proof.
  assert (∀ e, statusCode (answer_error e) ∈ [200; 401; 403; 405; 429; 500]%Z
               ∧ (statusCode (answer_error e) = 200%Z
                  ↔ carries_data (answer_error e))) as Herr.
  { intros e. destruct (answer_error_is_error e) as [Hno Hin].
    rewrite !elem_of_cons. split; [tauto|]. split; [lia | done]. }
  assert (∀ n msg,
            (n = 401 ∨ n = 405 ∨ n = 500)%Z →
            statusCode {| statusCode := n; payload := ErrorJson msg None |}
              ∈ [200; 401; 403; 405; 429; 500]%Z
            ∧ (statusCode {| statusCode := n; payload := ErrorJson msg None |}
                 = 200%Z
               ↔ carries_data
                   {| statusCode := n; payload := ErrorJson msg None |}))
    as Hplain.
  { intros n msg Hn. rewrite !elem_of_cons.
    simpl. split; [tauto|]. split; [lia | by intros (? & ? & ?)]. }
  unfold handler. case_bool_decide as Hmethod.
  { eexists _, st. split; [done|]. apply Hplain. tauto. }
  unfold try_catch, throw. destruct (body_of req) as [| |passkey]; simpl.
  { eexists _, st. split; [done|]. apply Herr. }
  { eexists _, st. split; [done|]. apply Herr. }
  destruct (from_option truthy_json false passkey); simpl;
    [|eexists _, st; split; [done|]; apply Hplain; tauto].
  destruct passkey as [data|]; simpl;
    [|eexists _, st; split; [done|]; apply Hplain; tauto].
  destruct data as [|b|n|p|l|l]; simpl;
    try (eexists _, st; split; [done|]; apply Herr).
  case_bool_decide as Hhash; simpl;
    [eexists _, st; split; [done|]; apply Hplain; tauto|].
  case_bool_decide as Htoken; simpl;
    [eexists _, st; split; [done|]; apply Hplain; tauto|].
  unfold mbind, M_bind. destruct (exportData rt st) as [[data|e] st'].
  - eexists _, st'. split; [done|]. simpl. rewrite !elem_of_cons.
    split; [tauto|]. split; [|done]. intros _. by eexists _, _.
  - eexists _, st'. split; [done|]. apply Herr.
Qed.

(** X15. For a request that passes the checks, with the token
    configured, once the workspace check and the two listings return
    the answer is 200 with the snapshot of the export and its summary,
    whatever the history calls and downloads did. *)
Theorem handler_succeeds_after_listing req st w1 w2 w3 channelsResponse
    usersResponse :
  authorized access req →
  SLACK_BOT_TOKEN rt ≠ "" →
  auth_test rt (world st) = (Returned tt, w1) →
  conversations_list rt w1 = (Returned channelsResponse, w2) →
  users_list rt w2 = (Returned usersResponse, w3) →
  ∃ snapshot st',
    exportData rt st = (Returned snapshot, st') ∧
    handler rt access req st =
      (Returned {| statusCode := 200;
                   payload := SuccessJson snapshot (success_summary snapshot) |},
       st') ∧
    ExportData.totalChannels snapshot = length (default [] channelsResponse) ∧
    history_requests (trace st') =
      history_requests (trace st) ++
      (Conversation.id <$> default [] channelsResponse).
Proof.
  intros (Hmethod & p & Hbody & Hp & Hhash) Htoken Ha Hc Hu.
  pose proof (exportData_listed rt _ _ _ _ _ _ Ha Hc Hu) as Hexport.
  match type of Hexport with _ = export_listed _ ?c ?u ?s =>
    destruct (export_listed_run rt c u s) as (st' & E & _);
    pose proof (export_listed_requests c u s) as Hreq
  end.
  rewrite E in Hreq. simpl in Hreq.
  rewrite E in Hexport.
  eexists _, st'. split; [exact Hexport|]. split.
  - unfold handler. rewrite bool_decide_eq_false_2 by (intros ?; done).
    unfold try_catch. rewrite Hbody. simpl.
    rewrite (bool_decide_eq_true_2 _ Hp). simpl.
    rewrite bool_decide_eq_false_2 by (intros Hne; by rewrite Hhash in Hne).
    rewrite bool_decide_eq_false_2 by done.
    unfold mbind, M_bind. by rewrite Hexport.
  - simpl. split; [done|]. rewrite Hreq.
    by rewrite !history_requests_app, !app_nil_r.
Qed.

(** X16. For a request that passes the checks, with the token
    configured, when the workspace check or a listing throws, the
    answer is chosen by the code of the exception: 401 for
    [not_authed], 403 for [missing_scope], 429 for [rate_limited], and
    otherwise 500 with the exception's message as details. It carries
    no data, and no channel history was asked for. *)
Theorem handler_answers_listing_failure req st e :
  authorized access req →
  SLACK_BOT_TOKEN rt ≠ "" →
  listing_fails rt (world st) e →
  ∃ r st',
    handler rt access req st = (Returned r, st') ∧
    ¬ carries_data r ∧
    history_requests (trace st') = history_requests (trace st) ∧
    statusCode r =
      (if decide (code e = Some "not_authed") then 401
       else if decide (code e = Some "missing_scope") then 403
       else if decide (code e = Some "rate_limited") then 429
       else 500)%Z ∧
    (code e ∉ [Some "not_authed"; Some "missing_scope"; Some "rate_limited"] →
     payload r = ErrorJson "Failed to export Slack data" (Some (message e))).
Proof.
  intros (Hmethod & p & Hbody & Hp & Hhash) Htoken Hfail.
  assert (∃ st', exportData rt st = (Thrown e, st')) as [st' Hexport].
  { unfold exportData, mbind, M_bind, call. simpl.
    destruct Hfail as [(w & Ha)|[(w1 & w & Ha & Hc)|
                        (w1 & cr & w2 & w & Ha & Hc & Hu)]].
    - rewrite Ha. by eexists.
    - rewrite Ha. simpl. rewrite Hc. by eexists.
    - rewrite Ha. simpl. rewrite Hc. simpl. rewrite Hu. by eexists. }
  destruct (exportData_thrown _ _ _ Hexport) as [_ Hreq].
  exists (answer_error e), st'. split.
  - unfold handler. rewrite bool_decide_eq_false_2 by (intros ?; done).
    unfold try_catch. rewrite Hbody. simpl.
    rewrite (bool_decide_eq_true_2 _ Hp). simpl.
    rewrite bool_decide_eq_false_2 by (intros Hne; by rewrite Hhash in Hne).
    rewrite bool_decide_eq_false_2 by done.
    unfold mbind, M_bind. by rewrite Hexport.
  - split; [apply answer_error_is_error|]. split; [done|].
    unfold answer_error. split; [by repeat case_decide|].
    rewrite !not_elem_of_cons. intros (H1 & H2 & H3 & _).
    by rewrite !decide_False.
Qed.

(** ** The viewer *)



End Coverage.

(** X10. The channel descriptors, the user mapping, the two counters
    taken from the listings and the keys of the message mapping are the
    same in any two exports of the same listing, whatever the two
    services did during the harvest. *)
Theorem export_descriptors_ignore_harvest {World1 World2 : Type}
    (rt1 : Runtime World1) (rt2 : Runtime World2) channels users st1 st2 :
  ∃ snapshot1 st1' snapshot2 st2',
    export_listed rt1 channels users st1 = (Returned snapshot1, st1') ∧
    export_listed rt2 channels users st2 = (Returned snapshot2, st2') ∧
    ExportData.channels snapshot1 = ExportData.channels snapshot2 ∧
    ExportData.users snapshot1 = ExportData.users snapshot2 ∧
    ExportData.totalChannels snapshot1 = ExportData.totalChannels snapshot2 ∧
    ExportData.totalUsers snapshot1 = ExportData.totalUsers snapshot2 ∧
    dom (ExportData.messages snapshot1) = dom (ExportData.messages snapshot2).
Proof.
  destruct (export_listed_run rt1 channels users st1) as (st1' & E1 & Hdom1).
  destruct (export_listed_run rt2 channels users st2) as (st2' & E2 & Hdom2).
  eexists _, st1', _, st2'. split; [exact E1|]. split; [exact E2|]. simpl.
  by rewrite Hdom1, Hdom2.
Qed.

(** * The further properties at work on the small workspace *)

Lemma harvest_success_effects_witness :
  ∃ st',
    harvest (demo_runtime [] []) ∅ demo_general demo_start =
      (Returned tt, st') ∧
    trace st' =
      [EvHistory "C1" 1697408000;
       EvFetch "https://files.slack.com/T1/F1/plan.png";
       EvSleep 100].
Proof.
  apply (harvest_success_effects (demo_runtime [] []) ∅ demo_general
           demo_start (Some demo_history) tt).
  reflexivity.
Defined.

Lemma harvest_keeps_history_order_witness :
  ∃ st' bundle,
    harvest (demo_runtime [] []) ∅ demo_general demo_start =
      (Returned tt, st') ∧
    channelMessages st' !! "general" = Some bundle ∧
    SlackMessage.ts <$> bundle =
      ["1700000000.000100"; "1700000000.000200"; "1700000000.000300";
       "1700000000.000400"; "1700000000.000500"].
Proof.
  destruct (harvest_keeps_history_order (demo_runtime [] []) ∅ demo_general
              demo_start (Some demo_history) tt eq_refl)
    as (st' & bundle & Hrun & Hbundle & _ & Hts);
    [intros H; discriminate H|].
  exists st', bundle. repeat split; assumption.
Defined.


Lemma export_keeps_last_descriptor_witness :
  ∃ snapshot st',
    export_listed (demo_runtime [] [])
      [demo_general; demo_general_archived] [] demo_start =
      (Returned snapshot, st') ∧
    ChannelInfo.id <$> ExportData.channels snapshot !! "general" = Some "C3".
Proof.
  destruct (export_keeps_last_descriptor (demo_runtime [] [])
              [demo_general; demo_general_archived] [] demo_start
              1 demo_general_archived)
    as (snapshot & st' & Hrun & _ & Hid).
  - split; [reflexivity|].
    intros k later Hk Hlookup. destruct k as [|[|k]]; [lia | lia | discriminate].
  - intros H. discriminate H.
  - exists snapshot, st'. split; assumption.
Defined.

Lemma embed_attaches_download_witness :
  ∃ st',
    embed (demo_runtime [] []) "xoxb-demo" demo_png demo_start =
      (Returned (SlackFile.with_file_data demo_png "TkVX"), st') ∧
    trace st' = [EvFetch "https://files.slack.com/T1/F1/plan.png"].
Proof.
  eexists. split.
  - apply (embed_attaches_download (demo_runtime [] []) "xoxb-demo" demo_png
             demo_start "https://files.slack.com/T1/F1/plan.png"
             {| ok := true; status := 200;
                arrayBuffer := Bytes [Byte.x4e; Byte.x45; Byte.x57] |}
             tt [Byte.x4e; Byte.x45; Byte.x57]);
      [reflexivity | reflexivity | reflexivity | reflexivity | reflexivity |].
    intros H. discriminate H.
  - reflexivity.
Defined.

Lemma embed_ignores_empty_download_witness :
  ∃ st',
    embed demo_empty_files_runtime "xoxb-demo" demo_png demo_start =
      (Returned demo_png, st') ∧
    trace st' = [EvFetch "https://files.slack.com/T1/F1/plan.png"].
Proof.
  eexists. split.
  - apply (embed_ignores_empty_download demo_empty_files_runtime "xoxb-demo"
             demo_png demo_start "https://files.slack.com/T1/F1/plan.png"
             {| ok := true; status := 200; arrayBuffer := Bytes [] |} tt []);
      reflexivity.
  - reflexivity.
Defined.

Lemma handler_refuses_unauthorized_witness :
  ∃ r,
    handler (demo_runtime [demo_general] [demo_bob]) demo_access
      (demo_request "guess") demo_start = (Returned r, demo_start) ∧
    statusCode r = 401%Z.
Proof.
  destruct (handler_refuses_unauthorized
              (demo_runtime [demo_general] [demo_bob]) demo_access
              (demo_request "guess") demo_start)
    as (r & Hrun & _ & Hstatus).
  - intros (_ & passkey & Hbody & _ & Hhash).
    injection Hbody as <-. discriminate Hhash.
  - exists r. split; assumption.
Defined.

Lemma handler_succeeds_after_listing_witness :
  ∃ snapshot st',
    handler (demo_runtime [demo_general; demo_secret_ops] [demo_bob])
      demo_access (demo_request "letmein") demo_start =
      (Returned {| statusCode := 200;
                   payload := SuccessJson snapshot (success_summary snapshot) |},
       st') ∧
    ExportData.totalChannels snapshot = 2 ∧
    history_requests (trace st') = ["C1"; "C2"].
Proof.
  destruct (handler_succeeds_after_listing
              (demo_runtime [demo_general; demo_secret_ops] [demo_bob])
              demo_access (demo_request "letmein") demo_start tt tt tt
              (Some [demo_general; demo_secret_ops]) (Some [demo_bob]))
    as (snapshot & st' & _ & Hrun & Htotal & Hreq);
    [| | reflexivity | reflexivity | reflexivity |].
  - split; [reflexivity|]. exists "letmein".
    split; [reflexivity|]. split; [|reflexivity]. intros H. discriminate H.
  - intros H. discriminate H.
  - exists snapshot, st'. repeat split; assumption.
Defined.

Lemma handler_answers_listing_failure_witness :
  ∃ r st',
    handler demo_limited_runtime demo_access (demo_request "letmein")
      demo_start = (Returned r, st') ∧
    statusCode r = 429%Z ∧
    history_requests (trace st') = [].
Proof.
  destruct (handler_answers_listing_failure demo_limited_runtime demo_access
              (demo_request "letmein") demo_start
              {| code := Some "rate_limited";
                 message := "A rate-limit has been reached" |})
    as (r & st' & Hrun & _ & Hreq & Hstatus & _).
  - split; [reflexivity|]. exists "letmein".
    split; [reflexivity|]. split; [|reflexivity]. intros H. discriminate H.
  - intros H. discriminate H.
  - left. by exists tt.
  - exists r, st'. repeat split; assumption.
Defined.


(** The viewer on the attachments of the small workspace: the file type
    decides when the mimetype does not, and a file without payload is
    shown from its Slack URL. *)
Example viewer_on_demo_files :
  isImage demo_pdf = false ∧
  isImage {| SlackFile.url_private := None;
             SlackFile.size := None;
             SlackFile.mimetype := Some "application/octet-stream";
             SlackFile.file_data := None;
             SlackFile.file_data_mimetype := None;
             SlackFile.other := {[ "filetype" := JStr "PNG" ]} |} = true ∧
  image_src demo_png = Some "https://files.slack.com/T1/F1/plan.png" ∧
  image_src demo_embedded_png = Some "data:image/png;base64,T0xE".
Proof. repeat split; by vm_compute. Qed.

(** The handler on the scenario of the specification: the refusal of
    one channel does not change the status. *)
Example handler_on_scenario :
  ∃ data st',
    handler (demo_runtime [demo_general; demo_secret_ops] [demo_bob])
      demo_access (demo_request "letmein") demo_start =
      (Returned
         {| statusCode := 200;
            payload :=
              SuccessJson data
                "Successfully exported 2 channels with 5 messages" |},
       st') ∧
    (handler (demo_runtime [demo_general] [demo_bob]) demo_access
       {| method := "GET"; body_of := NoBody |} demo_start).1 =
      Returned {| statusCode := 405;
                  payload := ErrorJson "Method not allowed" None |}.
Proof.
  eexists _, _. split; vm_compute; reflexivity.
Qed.

(** A passkey that is a number: zero is no passkey, any other number
    is refused by the digest, which the handler answers as a failure of
    the export. *)
Example handler_on_numeric_passkey :
  handler (demo_runtime [demo_general] [demo_bob]) demo_access
    {| method := "POST"; body_of := Body (Some (JNum 0)) |} demo_start =
    (Returned {| statusCode := 401;
                 payload := ErrorJson "Authentication required" None |},
     demo_start) ∧
  handler (demo_runtime [demo_general] [demo_bob]) demo_access
    {| method := "POST"; body_of := Body (Some (JNum 1234)) |} demo_start =
    (Returned
       {| statusCode := 500;
          payload :=
            ErrorJson "Failed to export Slack data"
              (Some "The data argument must be of type string or an instance of Buffer, TypedArray, or DataView.") |},
     demo_start).
Proof. split; vm_compute; reflexivity. Qed.
